(** * Poker hand evaluation: the two evaluators of the repository

    Shallow embedding of
    - [poker/old/pypoker/v0.1/poker.py]  (module [V01]): [evaluate_hand],
      [texas_holdem_score], [formatted_card];
    - [poker/py/v2/pokercombos.py]       (module [V2]): [is_straight],
      [is_flush], [get_rank_counts], [evaluate_hand], [get_hand_name],
      [formatted_card] and the module-level ranking loop ([rank_all],
      [all_hands], [df_data]);
    - the class [Deck] of both files (module [Deck]) and the dealing of
      [main] in poker.py.

    Python integers are [Z], counts of a [Counter] are [nat], lists and
    tuples are [list], an exception is the [Raise] case of [result]. *)

From Stdlib Require Import ZArith List Bool String Ascii Lia Permutation Sorted.
From Stdlib Require Import FinFun DecimalString DecimalZ.
Import ListNotations.
Local Open Scope string_scope.
Local Open Scope Z_scope.
Local Open Scope list_scope.

(** ** Python runtime: exceptions *)

Inductive exn : Type :=
| ValueError (msg : string)
| IndexError
| KeyError
| StopIteration
| UnboundLocalError.

Inductive result (A : Type) : Type :=
| Ok (a : A)
| Raise (e : exn).

Arguments Ok {A} a.
Arguments Raise {A} e.

Definition bind {A B : Type} (m : result A) (k : A -> result B) : result B :=
  match m with
  | Ok a => k a
  | Raise e => Raise e
  end.

Notation "x <- m ;; k" := (bind m (fun x => k))
  (at level 61, m at next level, right associativity).
Notation "' p <- m ;; k" := (bind m (fun x => match x with p => k end))
  (at level 61, p pattern, m at next level, right associativity).

(** A [for] loop whose body may raise. *)
Fixpoint for_each {S A : Type} (body : S -> A -> result S) (s : S) (l : list A)
  : result S :=
  match l with
  | [] => Ok s
  | x :: t => s' <- body s x ;; for_each body s' t
  end.

(** ** Python runtime: built-ins on lists *)

Definition len {A : Type} (l : list A) : Z := Z.of_nat (List.length l).

(** [l[i]] for a non-negative literal index. *)
Definition getitem {A : Type} (l : list A) (i : nat) : result A :=
  match nth_error l i with
  | Some x => Ok x
  | None => Raise IndexError
  end.

(** [next(g)] on a generator, given the list of what it would yield. *)
Definition next {A : Type} (g : list A) : result A :=
  match g with
  | x :: _ => Ok x
  | [] => Raise StopIteration
  end.

Definition py_max (l : list Z) : result Z :=
  match l with
  | x :: t => Ok (fold_left Z.max t x)
  | [] => Raise (ValueError "max() arg is an empty sequence")
  end.

Definition py_min (l : list Z) : result Z :=
  match l with
  | x :: t => Ok (fold_left Z.min t x)
  | [] => Raise (ValueError "min() arg is an empty sequence")
  end.

(** [==] and [<] on lists (and tuples) of integers. *)
Fixpoint seq_eqb (l1 l2 : list Z) : bool :=
  match l1, l2 with
  | [], [] => true
  | x :: t1, y :: t2 => (x =? y) && seq_eqb t1 t2
  | _, _ => false
  end.

Fixpoint seq_ltb (l1 l2 : list Z) : bool :=
  match l1, l2 with
  | _, [] => false
  | [], _ :: _ => true
  | x :: t1, y :: t2 =>
      if x =? y then seq_ltb t1 t2 else x <? y
  end.

(** [sorted]: a stable sort that, like Python's, only asks [<].  With
    [reverse=True] the test is [>] and equal elements keep their order. *)
Section Sorted.
Context {A : Type} (lt : A -> A -> bool).

Fixpoint insert (x : A) (l : list A) : list A :=
  match l with
  | [] => [x]
  | y :: t => if lt y x then y :: insert x t else x :: y :: t
  end.

Definition sorted (l : list A) : list A := fold_right insert [] l.

(** [x] may stand before [y] in the result: [y < x] is false. *)
Definition before (x y : A) : Prop := lt y x = false.
End Sorted.

Definition sorted_asc : list Z -> list Z := sorted Z.ltb.
Definition sorted_desc : list Z -> list Z := sorted Z.gtb.

(** [set(l)]: only its size is ever used; duplicates are dropped. *)
Section PySet.
Context {A : Type} (eqb : A -> A -> bool).

Fixpoint set (l : list A) : list A :=
  match l with
  | [] => []
  | x :: t => if existsb (eqb x) t then set t else x :: set t
  end.
End PySet.

(** [collections.Counter(l)]: a dict, so the keys are kept in the order of
    their first occurrence. *)
Fixpoint counter_add (k : Z) (d : list (Z * nat)) : list (Z * nat) :=
  match d with
  | [] => [(k, 1%nat)]
  | (k', c) :: d' =>
      if k =? k' then (k', S c) :: d' else (k', c) :: counter_add k d'
  end.

Definition Counter (l : list Z) : list (Z * nat) :=
  fold_left (fun d k => counter_add k d) l [].

Definition items (d : list (Z * nat)) : list (Z * nat) := d.

(** A well-formed counter: distinct keys, positive counts. *)
Definition counter_wf (d : list (Z * nat)) : Prop :=
  NoDup (map fst d) /\ Forall (fun kv => (0 < snd kv)%nat) d.

(** [d[k]]: a [Counter] answers 0 for a key it does not hold. *)
Definition counter_get (d : list (Z * nat)) (k : Z) : nat :=
  match find (fun kv => fst kv =? k) d with
  | Some kv => snd kv
  | None => O
  end.

Definition values (d : list (Z * nat)) : list nat := map snd d.

(** [itertools.combinations(l, k)], in the order itertools yields them. *)
Fixpoint combinations {A : Type} (l : list A) (k : nat) : list (list A) :=
  match k with
  | O => [[]]
  | S k' =>
      match l with
      | [] => []
      | x :: t => map (cons x) (combinations t k') ++ combinations t k
      end
  end.

(** [l.pop()]: the last element and what remains. *)
Fixpoint pop {A : Type} (l : list A) : option (A * list A) :=
  match l with
  | [] => None
  | x :: t =>
      match pop t with
      | None => Some (x, [])
      | Some (y, t') => Some (y, x :: t')
      end
  end.

(** [l[start:]] for any integer [start]. *)
Definition slice_from {A : Type} (start : Z) (l : list A) : list A :=
  let start := if start <? 0 then Z.max (start + len l) 0 else start in
  skipn (Z.to_nat start) l.


(** [str(n)] of an integer, which is also how an f-string shows it. *)
Definition str (n : Z) : string := NilEmpty.string_of_int (Z.to_int n).

(** ** Cards *)

(** The suits ['c'], ['h'], ['s'], ['d'] of [Deck.suits]. *)
Inductive suit : Type := Clubs | Hearts | Spades | Diamonds.

Definition suit_eqb (a b : suit) : bool :=
  match a, b with
  | Clubs, Clubs | Hearts, Hearts | Spades, Spades | Diamonds, Diamonds => true
  | _, _ => false
  end.

(** A card is the tuple [(rank, suit)]. *)
Definition card : Type := (Z * suit)%type.

(** The Python value of a suit, a one-letter string. *)
Definition suit_letter (s : suit) : string :=
  match s with
  | Clubs => "c"
  | Hearts => "h"
  | Spades => "s"
  | Diamonds => "d"
  end.

(** ** poker.py *)
Module V01.

Definition evaluate_hand (cards : list card)
  : result (string * Z * list card) :=
  let ranks := sorted_desc (map fst cards) in
  let suits := map snd cards in
  let rank_counts := Counter ranks in
  let is_flush := len (set suit_eqb suits) =? 1 in
  is_straight <-
    (if len (set Z.eqb ranks) =? 5 then
       hi <- py_max ranks ;;
       lo <- py_min ranks ;;
       Ok ((hi - lo =? 4) || seq_eqb ranks [14; 5; 4; 3; 2])
     else Ok false) ;;
  (* Royal Flush *)
  if is_flush && seq_eqb ranks [14; 13; 12; 11; 10] then
    Ok ("RF", 10, cards)
  (* Straight Flush *)
  else if is_flush && is_straight then
    Ok ("SF", 9, cards)
  (* Four of a Kind *)
  else if existsb (Nat.eqb 4) (values rank_counts) then
    four_rank <-
      next (map fst (filter (fun rc => (snd rc =? 4)%nat) (items rank_counts))) ;;
    kicker <- py_max (filter (fun r => negb (r =? four_rank)) ranks) ;;
    Ok ("4k", 8,
        filter (fun c => (fst c =? four_rank) || (fst c =? kicker)) cards)
  (* Full House *)
  else if existsb (Nat.eqb 3) (values rank_counts)
          && existsb (Nat.eqb 2) (values rank_counts) then
    three_rank <-
      next (map fst (filter (fun rc => (snd rc =? 3)%nat) (items rank_counts))) ;;
    pair_rank <-
      next (map fst (filter (fun rc => (snd rc =? 2)%nat) (items rank_counts))) ;;
    Ok ("FH", 7,
        filter (fun c => existsb (Z.eqb (fst c)) [three_rank; pair_rank]) cards)
  (* Flush *)
  else if is_flush then
    Ok ("FL", 6, cards)
  (* Straight *)
  else if is_straight then
    Ok ("ST", 5, cards)
  (* Three of a Kind *)
  else if existsb (Nat.eqb 3) (values rank_counts) then
    three_rank <-
      next (map fst (filter (fun rc => (snd rc =? 3)%nat) (items rank_counts))) ;;
    let kickers :=
      firstn 2 (sorted_desc (filter (fun r => negb (r =? three_rank)) ranks)) in
    Ok ("3K", 4,
        filter (fun c => (fst c =? three_rank)
                         || existsb (Z.eqb (fst c)) kickers) cards)
  (* Two Pair *)
  else if (2 <=? Z.of_nat (count_occ Nat.eq_dec (values rank_counts) 2%nat)) then
    let pair_ranks :=
      firstn 2 (sorted_desc
        (map fst (filter (fun rc => (snd rc =? 2)%nat) (items rank_counts)))) in
    kicker <-
      py_max (filter (fun r => negb (existsb (Z.eqb r) pair_ranks)) ranks) ;;
    Ok ("2P", 3,
        filter (fun c => existsb (Z.eqb (fst c)) pair_ranks
                         || (fst c =? kicker)) cards)
  (* Pair *)
  else if existsb (Nat.eqb 2) (values rank_counts) then
    pair_rank <-
      next (map fst (filter (fun rc => (snd rc =? 2)%nat) (items rank_counts))) ;;
    let kickers :=
      firstn 3 (sorted_desc (filter (fun r => negb (r =? pair_rank)) ranks)) in
    Ok ("PR", 2,
        filter (fun c => (fst c =? pair_rank)
                         || existsb (Z.eqb (fst c)) kickers) cards)
  (* High Card *)
  else Ok ("HC", 1, cards).

(** [best_score] is the 4-tuple [(hand_type, hand_rank, best_cards, ranks)];
    [hand_type] starts as [None]. *)
Definition score : Type := (option string * Z * list card * list Z)%type.

Definition sentinel : score := (None, 0, [], []).

Definition step (best_score : score) (combo : list card) : result score :=
  '(hand_type, hand_rank, best_cards) <- evaluate_hand combo ;;
  let ranks := sorted_desc (map fst best_cards) in
  let current_score := (Some hand_type, hand_rank, best_cards, ranks) in
  let '(_, best_rank, _, best_ranks) := best_score in
  if (best_rank <? hand_rank)
     || ((best_rank =? hand_rank) && seq_ltb best_ranks ranks)
  then Ok current_score
  else Ok best_score.

(** The loop of [texas_holdem_score] over a given enumeration of hands. *)
Definition best_of (combos : list (list card)) : result score :=
  for_each step sentinel combos.

Definition texas_holdem_score (seven_cards : list card)
  : result (option string * Z * list card) :=
  if negb (len seven_cards =? 7) then
    Raise (ValueError "Exactly seven cards are required")
  else
    '(hand_type, hand_rank, best_cards, _) <-
      best_of (combinations seven_cards 5) ;;
    Ok (hand_type, hand_rank, best_cards).

(** [formatted_card], without its two unused printing helpers. *)
Definition rank_map : list (Z * string) :=
  [(10, "T"); (11, "J"); (12, "Q"); (13, "K"); (14, "A")].

Definition suit_symbols (s : suit) : string :=
  match s with
  | Clubs => "♣"
  | Hearts => "♥"
  | Spades => "♠"
  | Diamonds => "♦"
  end.

Definition formatted_card (c : card) : string :=
  let rank :=
    match find (fun kv => fst kv =? fst c) rank_map with
    | Some kv => snd kv
    | None => str (fst c)
    end in
  (rank ++ suit_symbols (snd c))%string.

End V01.

(** ** pokercombos.py *)
Module V2.

(** [Deck.ranks], [Deck.suits] and the [cards] that [Deck.reset] builds. *)
Definition Deck_ranks : list Z := map Z.of_nat (seq 2 13).
Definition Deck_suits : list suit := [Clubs; Hearts; Spades; Diamonds].
Definition Deck_cards : list card :=
  flat_map (fun rank => map (fun suit => (rank, suit)) Deck_suits) Deck_ranks.

Definition is_straight (ranks : list Z) : result bool :=
  if len (set Z.eqb ranks) =? 5 then
    hi <- py_max ranks ;;
    lo <- py_min ranks ;;
    Ok ((hi - lo =? 4) || seq_eqb (sorted_asc ranks) [2; 3; 4; 5; 14])
  else Ok false.

Definition is_flush (suits : list suit) : bool :=
  len (set suit_eqb suits) =? 1.

(** The sort key [(x[1], x[0])] of [get_rank_counts] and [<] on it. *)
Definition count_key_ltb (x y : Z * nat) : bool :=
  if (snd x =? snd y)%nat then fst x <? fst y else (snd x <? snd y)%nat.

Definition get_rank_counts (ranks : list Z) : list (Z * nat) :=
  let counts := Counter ranks in
  sorted (fun x y => count_key_ltb y x) (items counts).

(** The pair [(hand_type_rank, tiebreaker_tuple)]. *)
Definition evaluation : Type := (Z * list Z)%type.

(** Reading a local variable that may not have been assigned. *)
Definition local (v : option Z) : result Z :=
  match v with
  | Some x => Ok x
  | None => Raise UnboundLocalError
  end.

Definition evaluate_hand (hand : list card) : result evaluation :=
  let ranks := map fst hand in
  let suits := map snd hand in
  let is_flush_hand := is_flush suits in
  is_straight_hand <- is_straight ranks ;;
  let rank_counts := get_rank_counts ranks in
  let count_at i := (rc <- getitem rank_counts i ;; Ok (snd rc)) in
  let rank_at i := (rc <- getitem rank_counts i ;; Ok (fst rc)) in
  (* For straights, handle A-2-3-4-5 (wheel) as low straight *)
  straight_high <-
    (if is_straight_hand then
       let sorted_ranks := sorted_asc ranks in
       if seq_eqb sorted_ranks [2; 3; 4; 5; 14] then Ok (Some 5)
       else (hi <- py_max ranks ;; Ok (Some hi))
     else Ok None) ;;
  if is_straight_hand && is_flush_hand then
    if seq_eqb (sorted_asc ranks) [10; 11; 12; 13; 14] && is_flush_hand then
      Ok (0, [])
    else
      sh <- local straight_high ;; Ok (1, [- sh])
  else
  c0 <- count_at 0%nat ;;
  if (c0 =? 4)%nat then
    four_kind <- rank_at 0%nat ;;
    kicker <- rank_at 1%nat ;;
    Ok (2, [- four_kind; - kicker])
  else
  c0 <- count_at 0%nat ;;
  is_full <- (if (c0 =? 3)%nat
              then (c1 <- count_at 1%nat ;; Ok (c1 =? 2)%nat)
              else Ok false) ;;
  if is_full then
    three_kind <- rank_at 0%nat ;;
    pair <- rank_at 1%nat ;;
    Ok (3, [- three_kind; - pair])
  else if is_flush_hand then
    let sorted_ranks_desc := sorted_desc ranks in
    Ok (4, map Z.opp sorted_ranks_desc)
  else if is_straight_hand then
    sh <- local straight_high ;; Ok (5, [- sh])
  else
  c0 <- count_at 0%nat ;;
  if (c0 =? 3)%nat then
    three_kind <- rank_at 0%nat ;;
    k1 <- rank_at 1%nat ;;
    k2 <- rank_at 2%nat ;;
    let kickers := sorted_desc [k1; k2] in
    ka <- getitem kickers 0 ;;
    kb <- getitem kickers 1 ;;
    Ok (6, [- three_kind; - ka; - kb])
  else
  c0 <- count_at 0%nat ;;
  is_two_pair <- (if (c0 =? 2)%nat
                  then (c1 <- count_at 1%nat ;; Ok (c1 =? 2)%nat)
                  else Ok false) ;;
  if is_two_pair then
    p0 <- rank_at 0%nat ;;
    p1 <- rank_at 1%nat ;;
    let high_pair := Z.max p0 p1 in
    p0 <- rank_at 0%nat ;;
    p1 <- rank_at 1%nat ;;
    let low_pair := Z.min p0 p1 in
    kicker <- rank_at 2%nat ;;
    Ok (7, [- high_pair; - low_pair; - kicker])
  else
  c0 <- count_at 0%nat ;;
  if (c0 =? 2)%nat then
    pair <- rank_at 0%nat ;;
    k1 <- rank_at 1%nat ;;
    k2 <- rank_at 2%nat ;;
    k3 <- rank_at 3%nat ;;
    let kickers := sorted_desc [k1; k2; k3] in
    ka <- getitem kickers 0 ;;
    kb <- getitem kickers 1 ;;
    kc <- getitem kickers 2 ;;
    Ok (8, [- pair; - ka; - kb; - kc])
  else
    let sorted_ranks_desc := sorted_desc ranks in
    Ok (9, map Z.opp sorted_ranks_desc).

Definition hand_names : list (Z * string) :=
  [ (0, "RF"); (1, "SF"); (2, "4K"); (3, "FH"); (4, "FL");
    (5, "ST"); (6, "3K"); (7, "2P"); (8, "1P"); (9, "HC") ].

Definition lookup (names : list (Z * string)) (k : Z) : result string :=
  match find (fun kv => fst kv =? k) names with
  | Some kv => Ok (snd kv)
  | None => Raise KeyError
  end.

Definition get_hand_name (hand : list card) : result string :=
  evaluation <- evaluate_hand hand ;;
  let hand_type := fst evaluation in
  lookup hand_names hand_type.

(** [==] and [<] on evaluations, as Python compares the tuples. *)
Definition eval_eqb (e1 e2 : evaluation) : bool :=
  (fst e1 =? fst e2) && seq_eqb (snd e1) (snd e2).

Definition eval_ltb (e1 e2 : evaluation) : bool :=
  if fst e1 =? fst e2 then seq_ltb (snd e1) (snd e2) else fst e1 <? fst e2.

(** One row of [df_data]; [Hand] keeps the cards that the script prints. *)
Record row : Type := mk_row { Hand : list card; Type_ : string; Rank : Z }.

Fixpoint enumerate_from {A : Type} (i : Z) (l : list A) : list (Z * A) :=
  match l with
  | [] => []
  | x :: t => (i, x) :: enumerate_from (i + 1) t
  end.

Definition enumerate {A : Type} (l : list A) : list (Z * A) :=
  enumerate_from 0 l.

(** The state of the ranking loop: [df_data], [current_rank] and
    [prev_evaluation]. *)
Definition rank_state : Type := (list row * Z * option evaluation)%type.

(** [evaluation != prev_evaluation]; [prev_evaluation] starts as [None]. *)
Definition differs (e : evaluation) (prev_evaluation : option evaluation)
  : bool :=
  match prev_evaluation with
  | None => true
  | Some prev => negb (eval_eqb e prev)
  end.

Definition rank_step (st : rank_state) (x : Z * (list card * evaluation))
  : result rank_state :=
  let '(df_data, current_rank, prev_evaluation) := st in
  let '(i, (hand, evaluation)) := x in
  (* If this evaluation is different from the previous, update rank *)
  let current_rank :=
    if differs evaluation prev_evaluation then i + 1 else current_rank in
  name <- get_hand_name hand ;;
  Ok (df_data ++ [mk_row hand name current_rank], current_rank, Some evaluation).

(** The module-level script from [hand_evaluations] on, with [all_hands]
    as its input. *)
Definition rank_all (all_hands : list (list card)) : result (list row) :=
  hand_evaluations <-
    for_each (fun acc hand => e <- evaluate_hand hand ;; Ok (acc ++ [(hand, e)]))
             [] all_hands ;;
  let hand_evaluations :=
    sorted (fun x y => eval_ltb (snd x) (snd y)) hand_evaluations in
  '(df_data, _, _) <-
    for_each rank_step ([], 1, None) (enumerate hand_evaluations) ;;
  Ok df_data.

(** [formatted_card]; its [suit_symbols] is not used. *)
Definition rank_map : list (Z * string) :=
  [(10, "T"); (11, "J"); (12, "Q"); (13, "K"); (14, "A")].

Definition formatted_card (c : card) : string :=
  let rank :=
    match find (fun kv => fst kv =? fst c) rank_map with
    | Some kv => snd kv
    | None => str (fst c)
    end in
  (rank ++ suit_letter (snd c))%string.

(** The text of the column [Hand]. *)
Definition hand_text (hand : list card) : string :=
  String.concat " " (map formatted_card hand).

(** [all_hands] and [df_data] of the script. *)
Definition all_hands : list (list card) := combinations Deck_cards 5.

Definition df_data : result (list row) := rank_all all_hands.

End V2.

(** * The class [Deck] of poker.py

    pokercombos.py has the same class without [peek_top], [cards_remaining]
    and [__len__], and with [deal_turn_river] for [deal_turn] and
    [deal_river]. *)

Module Deck.

(** The attributes of a [Deck] object. *)
Record t : Type := mk
  { ranks : list Z; suits : list suit; cards : list card; dealt_cards : list card }.

(** A method: it reads and updates the object, and what it has done to the
    object stays done when it raises. *)
Definition method (A : Type) : Type := t -> result A * t.

Definition ret {A : Type} (a : A) : method A := fun self => (Ok a, self).

Definition mbind {A B : Type} (m : method A) (k : A -> method B) : method B :=
  fun self =>
    match m self with
    | (Ok a, self') => k a self'
    | (Raise e, self') => (Raise e, self')
    end.

Notation "x <~ m ;; k" := (mbind m (fun x => k))
  (at level 61, m at next level, right associativity).

Definition reset (self : t) : t :=
  mk (ranks self) (suits self)
     (flat_map (fun rank => map (fun suit => (rank, suit)) (suits self))
               (ranks self))
     [].

(** [Deck()] *)
Definition init : t :=
  reset (mk (map Z.of_nat (seq 2 13)) [Clubs; Hearts; Spades; Diamonds] [] []).

(** [random.shuffle(self.cards)]: the cards in some other order. *)
Definition shuffle (self self' : t) : Prop :=
  Permutation (cards self) (cards self') /\
  ranks self' = ranks self /\ suits self' = suits self /\
  dealt_cards self' = dealt_cards self.

Definition deal_card : method card :=
  fun self =>
    match pop (cards self) with
    | None => (Raise (ValueError "Cannot deal from an empty deck!"), self)
    | Some (card, rest) =>
        (Ok card,
         mk (ranks self) (suits self) rest (dealt_cards self ++ [card]))
    end.

(** [[self.deal_card() for _ in range(n)]] *)
Fixpoint deal_cards (n : nat) : method (list card) :=
  match n with
  | O => ret []
  | S n' =>
      card <~ deal_card ;;
      rest <~ deal_cards n' ;;
      ret (card :: rest)
  end.

Definition deal_hand (num_cards : Z) : method (list card) :=
  deal_cards (Z.to_nat num_cards).

Definition burn_card : method (option card) :=
  fun self =>
    match pop (cards self) with
    | Some (burned, rest) =>
        (Ok (Some burned),
         mk (ranks self) (suits self) rest (dealt_cards self ++ [burned]))
    | None => (Ok None, self)
    end.

Definition deal_flop : method (list card) :=
  _ <~ burn_card ;;
  deal_cards 3.

Definition deal_turn : method card :=
  _ <~ burn_card ;;
  deal_card.

Definition deal_river : method card :=
  _ <~ burn_card ;;
  deal_card.

(** pokercombos.py has this one method for the turn and for the river. *)
Definition deal_turn_river : method card :=
  _ <~ burn_card ;;
  deal_card.

Definition cards_remaining (self : t) : Z := len (cards self).

Definition peek_top (num : Z) (self : t) : list card :=
  if len (cards self) <? num then
    slice_from (- len (cards self)) (cards self)
  else slice_from (- num) (cards self).

(** The dealing of [main]: two cards to each of [players] players, then the
    flop, the turn and the river. *)
Fixpoint deal_players (players : nat) : method (list (list card)) :=
  match players with
  | O => ret []
  | S n =>
      hand <~ deal_hand 2 ;;
      rest <~ deal_players n ;;
      ret (hand :: rest)
  end.

Definition deal_table : method (list card) :=
  flop <~ deal_flop ;;
  turn <~ deal_turn ;;
  river <~ deal_river ;;
  ret (flop ++ [turn] ++ [river]).

(** [main] up to its scoring: five players, then the table. *)
Definition main_deal : method (list (list card) * list card) :=
  hands <~ deal_players 5 ;;
  table <~ deal_table ;;
  ret (hands, table).

(** Every card of the object: those left, then those dealt, last dealt
    first. *)
Definition all_cards (self : t) : list card :=
  cards self ++ rev (dealt_cards self).

(** [m] neither loses nor adds a card, and leaves [ranks] and [suits]. *)
Definition conserves {A : Type} (m : method A) : Prop :=
  forall self,
    all_cards (snd (m self)) = all_cards self /\
    ranks (snd (m self)) = ranks self /\
    suits (snd (m self)) = suits self.

End Deck.

(** * The two evaluators side by side *)

(** The ten categories: the index that pokercombos.py returns, and the label
    and [hand_rank] that poker.py returns for it. *)
Definition categories : list (Z * string * Z) :=
  [ (0, "RF", 10); (1, "SF", 9); (2, "4k", 8); (3, "FH", 7); (4, "FL", 6);
    (5, "ST", 5); (6, "3K", 4); (7, "2P", 3); (8, "PR", 2); (9, "HC", 1) ].

(** Both evaluators return, and in the same category. *)
Definition agree (r1 : result (string * Z * list card))
                 (r2 : result V2.evaluation) : Prop :=
  exists idx tb label rank bc,
    r2 = Ok (idx, tb) /\ r1 = Ok (label, rank, bc) /\
    In (idx, label, rank) categories.

Definition labels : list string := map (fun x => snd (fst x)) categories.

(** * Vocabulary of the loops *)

(** [sc] is the score that [texas_holdem_score] builds for one of [combos]. *)
Definition candidate (combos : list (list card)) (sc : V01.score) : Prop :=
  exists combo label rank bc,
    In combo combos /\
    V01.evaluate_hand combo = Ok (label, rank, bc) /\
    sc = (Some label, rank, bc, sorted_desc (map fst bc)).

(** The part of a score that [texas_holdem_score] compares: [hand_rank],
    then the ranks of [best_cards] in descending order. *)
Definition score_key (sc : V01.score) : Z * list Z :=
  let '(_, hand_rank, _, ranks) := sc in (hand_rank, ranks).

Definition hand_key (r : string * Z * list card) : Z * list Z :=
  let '(_, hand_rank, best_cards) := r in
  (hand_rank, sorted_desc (map fst best_cards)).

(** What the ranking loop, started at index [i] with [current_rank = cur] and
    [prev_evaluation = prev], writes for the evaluated hands [L]. *)
Definition ranked (i cur : Z) (prev : option V2.evaluation)
    (L : list (list card * V2.evaluation)) (rows : list V2.row) : Prop :=
  List.length rows = List.length L /\
  forall k he r,
    nth_error L k = Some he -> nth_error rows k = Some r ->
    V2.Hand r = fst he /\
    V2.get_hand_name (fst he) = Ok (V2.Type_ r) /\
    match k with
    | O => V2.Rank r = if V2.differs (snd he) prev then i + 1 else cur
    | S k' =>
        forall he' r',
          nth_error L k' = Some he' -> nth_error rows k' = Some r' ->
          V2.Rank r = if V2.eval_eqb (snd he) (snd he') then V2.Rank r'
                      else i + Z.of_nat k + 1
    end.


(** The number of ways to choose [k] of [n]. *)
Fixpoint binomial (n k : nat) {struct n} : Z :=
  match k, n with
  | O, _ => 1
  | S _, O => 0
  | S k', S n' => binomial n' k' + binomial n' k
  end.

(** Every character of [s] passes the test [p]. *)
Fixpoint all_chars (p : ascii -> bool) (s : string) : bool :=
  match s with
  | EmptyString => true
  | String c s' => p c && all_chars p s'
  end.

Definition is_digit_or_minus (c : ascii) : bool :=
  existsb (Ascii.eqb c) (list_ascii_of_string "-0123456789").

Definition not_space (c : ascii) : bool := negb (Ascii.eqb c " ").

(** * Every arrangement of a list *)

Fixpoint interleave {A : Type} (x : A) (l : list A) : list (list A) :=
  match l with
  | [] => [[x]]
  | y :: t => (x :: y :: t) :: map (cons y) (interleave x t)
  end.

Fixpoint arrangements {A : Type} (l : list A) : list (list A) :=
  match l with
  | [] => [[]]
  | x :: t => flat_map (interleave x) (arrangements t)
  end.

(** [texas_holdem_score] answers four of a kind, with cards that
    pokercombos.py evaluates to [(2, tiebreak)]. *)
Definition is_four_of_a_kind (tiebreak : list Z)
    (r : result (option string * Z * list card)) : bool :=
  match r with
  | Ok (Some label, rank, bc) =>
      String.eqb label "4k" && (rank =? 8) &&
      match V2.evaluate_hand bc with
      | Ok (idx, tb) => (idx =? 2) && seq_eqb tb tiebreak
      | Raise _ => false
      end
  | _ => false
  end.

(** * Sample hands *)

Definition wheel : list card :=
  [(14, Clubs); (2, Hearts); (3, Spades); (4, Diamonds); (5, Clubs)].
Definition six_high : list card :=
  [(2, Hearts); (3, Spades); (4, Diamonds); (5, Clubs); (6, Hearts)].
Definition wheel_and_six : list card :=
  [(14, Clubs); (2, Hearts); (3, Spades); (4, Diamonds); (5, Clubs);
   (6, Hearts); (9, Spades)].
Definition quad_aces : list card :=
  [(14, Clubs); (14, Hearts); (14, Spades); (14, Diamonds);
   (13, Clubs); (13, Hearts); (2, Diamonds)].
Definition broadway_suited : list card :=
  [(10, Spades); (11, Spades); (12, Spades); (13, Spades); (14, Spades)].
Definition broadway_mixed : list card :=
  [(10, Spades); (11, Hearts); (12, Spades); (13, Spades); (14, Spades)].
Definition four_cards : list card :=
  [(6, Clubs); (8, Hearts); (3, Spades); (4, Diamonds)].

Definition two_pair : list card :=
  [(9, Clubs); (4, Hearts); (13, Clubs); (4, Diamonds); (9, Spades)].

(** * Facts about the Python runtime *)

(** ** [sorted] *)
Section SortedFacts.
Context {A : Type} (lt : A -> A -> bool).

Lemma insert_perm (x : A) (l : list A) : Permutation (insert lt x l) (x :: l).
Proof.
  induction l as [|y t IH]; simpl; [reflexivity|].
  destruct (lt y x); [|reflexivity].
  rewrite IH. apply perm_swap.
Qed.

Lemma sorted_perm (l : list A) : Permutation (sorted lt l) l.
Proof.
  induction l as [|x t IH]; simpl; [reflexivity|].
  rewrite insert_perm. now constructor.
Qed.

Lemma sorted_length (l : list A) : List.length (sorted lt l) = List.length l.
Proof. apply Permutation_length, sorted_perm. Qed.

Hypothesis lt_asym : forall x y, lt x y = true -> lt y x = false.
Hypothesis before_trans : forall x y z, before lt x y -> before lt y z -> before lt x z.

Lemma insert_sorted (x : A) (l : list A) :
  StronglySorted (before lt) l -> StronglySorted (before lt) (insert lt x l).
Proof.
  induction 1 as [|y t Hs IH Hall]; simpl.
  - constructor; constructor.
  - destruct (lt y x) eqn:E.
    + constructor; [exact IH|].
      rewrite Forall_forall in *. intros z Hz.
      apply (Permutation_in _ (insert_perm x t)) in Hz.
      destruct Hz as [<-|Hz]; [now apply lt_asym | now apply Hall].
    + constructor; [now constructor|].
      constructor; [exact E|].
      rewrite Forall_forall in *. intros z Hz.
      apply before_trans with y; [exact E | now apply Hall].
Qed.

Lemma sorted_sorted (l : list A) : StronglySorted (before lt) (sorted lt l).
Proof.
  induction l as [|x t IH]; simpl; [constructor | now apply insert_sorted].
Qed.

(** When [lt] is a strict total order the result depends on the multiset
    only. *)
Hypothesis lt_total : forall x y, lt x y = false -> lt y x = false -> x = y.

Lemma sorted_unique (l1 l2 : list A) :
  StronglySorted (before lt) l1 -> StronglySorted (before lt) l2 ->
  Permutation l1 l2 -> l1 = l2.
Proof.
  intros H1; revert l2.
  induction H1 as [|x t Hs IH Hall]; intros l2 H2 HP.
  - now apply Permutation_nil in HP.
  - destruct H2 as [|y u Hs2 Hall2].
    + symmetry in HP. now apply Permutation_nil in HP.
    + assert (x = y) as ->.
      { rewrite Forall_forall in Hall, Hall2.
        assert (Hy : In y (x :: t))
          by (apply (Permutation_in _ (Permutation_sym HP)); now left).
        assert (Hx : In x (y :: u))
          by (apply (Permutation_in _ HP); now left).
        destruct Hy as [->|Hy]; [reflexivity|].
        destruct Hx as [->|Hx]; [reflexivity|].
        apply lt_total; [apply (Hall2 _ Hx) | apply (Hall _ Hy)]. }
      f_equal. apply IH; [exact Hs2|].
      now apply Permutation_cons_inv in HP.
Qed.

Lemma sorted_of_perm (l1 l2 : list A) :
  Permutation l1 l2 -> sorted lt l1 = sorted lt l2.
Proof.
  intros HP. apply sorted_unique; try apply sorted_sorted.
  now rewrite !sorted_perm.
Qed.

Lemma sorted_id (l : list A) : StronglySorted (before lt) l -> sorted lt l = l.
Proof.
  intros Hs. apply sorted_unique; [apply sorted_sorted | exact Hs |].
  apply sorted_perm.
Qed.
End SortedFacts.

Lemma StronglySorted_weaken {A : Type} (R R' : A -> A -> Prop) (l : list A) :
  (forall x y, R x y -> R' x y) -> StronglySorted R l -> StronglySorted R' l.
Proof.
  intros HR. induction 1 as [|x t Hs IH Hall]; constructor; [exact IH|].
  eapply Forall_impl; [apply HR | exact Hall].
Qed.

(** The integer orders used by [sorted_asc] and [sorted_desc]. *)
Lemma sorted_asc_perm (l1 l2 : list Z) :
  Permutation l1 l2 -> sorted_asc l1 = sorted_asc l2.
Proof. apply sorted_of_perm; unfold before; intros; lia. Qed.

Lemma sorted_desc_perm (l1 l2 : list Z) :
  Permutation l1 l2 -> sorted_desc l1 = sorted_desc l2.
Proof. apply sorted_of_perm; unfold before; intros; lia. Qed.

Lemma sorted_desc_sorted (l : list Z) : StronglySorted Z.ge (sorted_desc l).
Proof.
  eapply StronglySorted_weaken; [|apply sorted_sorted].
  - unfold before. intros x y Hxy. lia.
  - intros; lia.
  - unfold before; intros; lia.
Qed.

Lemma sorted_desc_id (l : list Z) : StronglySorted Z.ge l -> sorted_desc l = l.
Proof.
  intros Hs. apply sorted_id; try (unfold before; intros; lia).
  eapply StronglySorted_weaken; [|exact Hs]. unfold before. intros x y Hxy. lia.
Qed.

(** ** [set] *)
Section SetFacts.
Context {A : Type} (eqb : A -> A -> bool).
Hypothesis eqb_eq : forall x y, eqb x y = true <-> x = y.

Lemma existsb_eqb_In (x : A) (l : list A) : existsb (eqb x) l = true <-> In x l.
Proof.
  rewrite existsb_exists. split.
  - intros (y & Hy & E). apply eqb_eq in E. now subst.
  - intros Hx. exists x. split; [exact Hx | now apply eqb_eq].
Qed.

Lemma set_In (x : A) (l : list A) : In x (set eqb l) <-> In x l.
Proof.
  induction l as [|y t IH]; simpl; [tauto|].
  destruct (existsb (eqb y) t) eqn:E; simpl; rewrite IH.
  - apply existsb_eqb_In in E. split; [tauto|]. intros [<-|H]; tauto.
  - tauto.
Qed.

Lemma set_NoDup (l : list A) : NoDup (set eqb l).
Proof.
  induction l as [|y t IH]; simpl; [constructor|].
  destruct (existsb (eqb y) t) eqn:E; [exact IH|].
  constructor; [|exact IH].
  rewrite set_In, <- existsb_eqb_In, E. discriminate.
Qed.

Lemma len_set_perm (l1 l2 : list A) :
  Permutation l1 l2 -> len (set eqb l1) = len (set eqb l2).
Proof.
  intros HP. unfold len. f_equal. apply Permutation_length.
  apply NoDup_Permutation; try apply set_NoDup.
  intros x. rewrite !set_In. split; apply Permutation_in; [|symmetry]; exact HP.
Qed.
End SetFacts.

(** ** [max] and [min] *)
Lemma fold_max_spec (t : list Z) (x : Z) :
  In (fold_left Z.max t x) (x :: t) /\
  Forall (fun y => y <= fold_left Z.max t x) (x :: t).
Proof.
  revert x. induction t as [|y t IH]; intros x; simpl.
  - split; [now left | constructor; [lia | constructor]].
  - destruct (IH (Z.max x y)) as [Hin Hall]. split.
    + destruct Hin as [E|Hin]; [|now right; right].
      rewrite <- E. destruct (Z.max_spec x y) as [[_ ->]|[_ ->]]; simpl; tauto.
    + inversion Hall as [|? ? Hm Ht]; subst.
      constructor; [lia|]. constructor; [lia | exact Ht].
Qed.

Lemma fold_min_spec (t : list Z) (x : Z) :
  In (fold_left Z.min t x) (x :: t) /\
  Forall (fun y => fold_left Z.min t x <= y) (x :: t).
Proof.
  revert x. induction t as [|y t IH]; intros x; simpl.
  - split; [now left | constructor; [lia | constructor]].
  - destruct (IH (Z.min x y)) as [Hin Hall]. split.
    + destruct Hin as [E|Hin]; [|now right; right].
      rewrite <- E. destruct (Z.min_spec x y) as [[_ ->]|[_ ->]]; simpl; tauto.
    + inversion Hall as [|? ? Hm Ht]; subst.
      constructor; [lia|]. constructor; [lia | exact Ht].
Qed.

Lemma py_max_perm (l1 l2 : list Z) : Permutation l1 l2 -> py_max l1 = py_max l2.
Proof.
  intros HP. destruct l1 as [|x t], l2 as [|y u]; simpl.
  - reflexivity.
  - now apply Permutation_nil in HP.
  - symmetry in HP. now apply Permutation_nil in HP.
  - f_equal.
    destruct (fold_max_spec t x) as [I1 A1], (fold_max_spec u y) as [I2 A2].
    rewrite Forall_forall in A1, A2.
    apply (Permutation_in _ HP) in I1.
    apply (Permutation_in _ (Permutation_sym HP)) in I2.
    specialize (A1 _ I2). specialize (A2 _ I1). lia.
Qed.

Lemma py_min_perm (l1 l2 : list Z) : Permutation l1 l2 -> py_min l1 = py_min l2.
Proof.
  intros HP. destruct l1 as [|x t], l2 as [|y u]; simpl.
  - reflexivity.
  - now apply Permutation_nil in HP.
  - symmetry in HP. now apply Permutation_nil in HP.
  - f_equal.
    destruct (fold_min_spec t x) as [I1 A1], (fold_min_spec u y) as [I2 A2].
    rewrite Forall_forall in A1, A2.
    apply (Permutation_in _ HP) in I1.
    apply (Permutation_in _ (Permutation_sym HP)) in I2.
    specialize (A1 _ I2). specialize (A2 _ I1). lia.
Qed.

(** ** [Counter] *)
Lemma counter_get_add (k r : Z) (d : list (Z * nat)) :
  counter_get (counter_add k d) r =
  if r =? k then S (counter_get d r) else counter_get d r.
Proof.
  unfold counter_get. induction d as [|[k' n] d IH]; simpl.
  - rewrite (Z.eqb_sym k r). now destruct (r =? k).
  - destruct (k =? k') eqn:E; simpl.
    + apply Z.eqb_eq in E. subst k'.
      rewrite (Z.eqb_sym k r). now destruct (r =? k).
    + destruct (k' =? r) eqn:E'; [|exact IH].
      apply Z.eqb_eq in E'. subst k'. rewrite Z.eqb_sym, E. reflexivity.
Qed.

Lemma counter_get_fold (l : list Z) (d : list (Z * nat)) (r : Z) :
  counter_get (fold_left (fun d k => counter_add k d) l d) r =
  (counter_get d r + count_occ Z.eq_dec l r)%nat.
Proof.
  revert d. induction l as [|x l IH]; intros d; simpl; [lia|].
  rewrite IH, counter_get_add.
  destruct (Z.eq_dec x r) as [->|N].
  - rewrite Z.eqb_refl. lia.
  - destruct (Z.eqb_spec r x); [congruence | lia].
Qed.

Lemma counter_get_Counter (l : list Z) (r : Z) :
  counter_get (Counter l) r = count_occ Z.eq_dec l r.
Proof. unfold Counter. now rewrite counter_get_fold. Qed.

Lemma counter_add_keys (k r : Z) (d : list (Z * nat)) :
  In r (map fst (counter_add k d)) <-> r = k \/ In r (map fst d).
Proof.
  induction d as [|[k' n] d IH]; simpl.
  - intuition.
  - destruct (Z.eqb_spec k k'); simpl.
    + subst. intuition.
    + rewrite IH. intuition.
Qed.

Lemma counter_add_wf (k : Z) (d : list (Z * nat)) :
  counter_wf d -> counter_wf (counter_add k d).
Proof.
  intros [Hk Hp]. induction d as [|[k' n] d IH]; simpl.
  - split; repeat constructor. simpl. tauto.
  - inversion Hk as [|? ? Hn Hk']; subst. inversion Hp as [|? ? Hp0 Hp']; subst.
    destruct (Z.eqb_spec k k'); simpl.
    + split; constructor; simpl in *; try assumption; lia.
    + destruct (IH Hk' Hp') as [IH1 IH2].
      split; constructor; simpl in *; try assumption.
      rewrite counter_add_keys. intros [E|E]; [congruence | contradiction].
Qed.

Lemma Counter_wf (l : list Z) : counter_wf (Counter l).
Proof.
  unfold Counter.
  assert (G : forall d, counter_wf d ->
                        counter_wf (fold_left (fun d k => counter_add k d) l d)).
  { induction l as [|x l IH]; intros d Hd; simpl; [exact Hd|].
    apply IH, counter_add_wf, Hd. }
  apply G. split; constructor.
Qed.

Lemma counter_wf_In (d : list (Z * nat)) (r : Z) (n : nat) :
  counter_wf d -> (In (r, n) d <-> counter_get d r = n /\ (0 < n)%nat).
Proof.
  intros [Hk Hp]. unfold counter_get.
  induction d as [|[k' m] d IH]; simpl.
  - split; [tauto | intros [<- H]; lia].
  - inversion Hk as [|? ? Hn Hk']; subst. inversion Hp as [|? ? Hp0 Hp']; subst.
    simpl in *. destruct (Z.eqb_spec k' r) as [->|N]; simpl.
    + split.
      * intros [E|Hin]; [inversion E; subst; split; [reflexivity | exact Hp0]|].
        exfalso. apply Hn. apply (in_map fst) in Hin. exact Hin.
      * intros [-> _]. now left.
    + rewrite <- (IH Hk' Hp'). split; [|tauto].
      intros [E|Hin]; [inversion E; congruence | exact Hin].
Qed.

Lemma Counter_In (l : list Z) (r : Z) (n : nat) :
  In (r, n) (Counter l) <-> count_occ Z.eq_dec l r = n /\ (0 < n)%nat.
Proof.
  rewrite (counter_wf_In _ _ _ (Counter_wf l)), counter_get_Counter. tauto.
Qed.

Lemma Counter_NoDup (l : list Z) : NoDup (Counter l).
Proof.
  destruct (Counter_wf l) as [Hk _]. now apply NoDup_map_inv in Hk.
Qed.

Lemma Counter_perm (l1 l2 : list Z) :
  Permutation l1 l2 -> Permutation (Counter l1) (Counter l2).
Proof.
  intros HP. apply NoDup_Permutation; try apply Counter_NoDup.
  intros [r n]. rewrite !Counter_In.
  now rewrite (Permutation_count_occ Z.eq_dec l1 l2) in HP; rewrite (HP r).
Qed.

(** * Facts about pokercombos.py *)

Lemma count_key_asym (x y : Z * nat) :
  V2.count_key_ltb y x = true -> V2.count_key_ltb x y = false.
Proof.
  unfold V2.count_key_ltb. rewrite (Nat.eqb_sym (snd x) (snd y)).
  destruct (Nat.eqb_spec (snd y) (snd x)); [lia|].
  intros H. apply Nat.ltb_lt in H. apply Nat.ltb_ge. lia.
Qed.

Lemma count_key_trans (x y z : Z * nat) :
  V2.count_key_ltb x y = false -> V2.count_key_ltb y z = false ->
  V2.count_key_ltb x z = false.
Proof.
  unfold V2.count_key_ltb.
  destruct (Nat.eqb_spec (snd x) (snd y)), (Nat.eqb_spec (snd y) (snd z)),
    (Nat.eqb_spec (snd x) (snd z));
    rewrite ?Z.ltb_ge, ?Nat.ltb_ge; lia.
Qed.

Lemma count_key_total (x y : Z * nat) :
  V2.count_key_ltb y x = false -> V2.count_key_ltb x y = false -> x = y.
Proof.
  unfold V2.count_key_ltb. destruct x as [r n], y as [r' n']; simpl.
  rewrite (Nat.eqb_sym n n').
  destruct (Nat.eqb_spec n' n); rewrite ?Z.ltb_ge, ?Nat.ltb_ge; intros; f_equal; lia.
Qed.

Lemma get_rank_counts_perm (l1 l2 : list Z) :
  Permutation l1 l2 -> V2.get_rank_counts l1 = V2.get_rank_counts l2.
Proof.
  intros HP. unfold V2.get_rank_counts, items. apply sorted_of_perm.
  - intros x y. apply count_key_asym.
  - unfold before. intros x y z. apply count_key_trans.
  - intros x y. apply count_key_total.
  - now apply Counter_perm.
Qed.

Lemma V2_is_straight_perm (l1 l2 : list Z) :
  Permutation l1 l2 -> V2.is_straight l1 = V2.is_straight l2.
Proof.
  intros HP. unfold V2.is_straight.
  now rewrite (len_set_perm Z.eqb Z.eqb_eq _ _ HP), (py_max_perm _ _ HP),
    (py_min_perm _ _ HP), (sorted_asc_perm _ _ HP).
Qed.

(** [evaluate_hand] reads the ranks as a multiset, and the suits only through
    [is_flush]. *)
Lemma V2_evaluate_hand_perm (h1 h2 : list card) :
  Permutation (map fst h1) (map fst h2) ->
  V2.is_flush (map snd h1) = V2.is_flush (map snd h2) ->
  V2.evaluate_hand h1 = V2.evaluate_hand h2.
Proof.
  intros HP HF. unfold V2.evaluate_hand.
  now rewrite HF, (V2_is_straight_perm _ _ HP), (get_rank_counts_perm _ _ HP),
    (sorted_asc_perm _ _ HP), (sorted_desc_perm _ _ HP), (py_max_perm _ _ HP).
Qed.

(** * The classification of a five-card hand *)

Lemma seq_eqb_eq (l1 l2 : list Z) : seq_eqb l1 l2 = true <-> l1 = l2.
Proof.
  revert l2. induction l1 as [|x t IH]; intros [|y u]; simpl;
    try (split; congruence).
  rewrite andb_true_iff, Z.eqb_eq, IH.
  split; [intros [-> ->]; reflexivity | intros E; inversion E; auto].
Qed.

Lemma seq_eqb_rev5 a b c d e a' b' c' d' e' :
  seq_eqb [e; d; c; b; a] [e'; d'; c'; b'; a'] =
  seq_eqb [a; b; c; d; e] [a'; b'; c'; d'; e'].
Proof.
  simpl. destruct (a =? a'), (b =? b'), (c =? c'), (d =? d'), (e =? e');
    reflexivity.
Qed.

(** Comparisons between ranks whose order is known are decided by [lia]. *)
Ltac decide_cmp :=
  repeat match goal with
  | |- context [Z.eqb ?x ?y] =>
      first [ rewrite (Z.eqb_refl x)
            | replace (Z.eqb x y) with false by (symmetry; apply Z.eqb_neq; lia)
            | replace (Z.eqb x y) with true by (symmetry; apply Z.eqb_eq; lia) ]
  | |- context [Z.ltb ?x ?y] =>
      first [ replace (Z.ltb x y) with false by (symmetry; apply Z.ltb_ge; lia)
            | replace (Z.ltb x y) with true by (symmetry; apply Z.ltb_lt; lia) ]
  | |- context [Z.gtb ?x ?y] => rewrite (Z.gtb_ltb x y)
  | |- context [Z.max ?x ?y] =>
      first [ replace (Z.max x y) with x by lia
            | replace (Z.max x y) with y by lia ]
  | |- context [Z.min ?x ?y] =>
      first [ replace (Z.min x y) with x by lia
            | replace (Z.min x y) with y by lia ]
  end.

Ltac norm := repeat (progress (cbn -[seq_eqb]; decide_cmp)).

(** What the two evaluators compute from the ranks [a >= b >= c >= d >= e],
    once it is known which neighbours are equal. *)
Ltac components a b c d e :=
  let Hrc := fresh "Hrc" in
  eassert (Hrc : V2.get_rank_counts [a; b; c; d; e] = _);
  [ unfold V2.get_rank_counts, Counter, items, V2.count_key_ltb; norm;
    reflexivity |];
  let Hst := fresh "Hst" in
  eassert (Hst : V2.is_straight [a; b; c; d; e] = _);
  [ unfold V2.is_straight, sorted_asc; norm; reflexivity |];
  let Hasc := fresh "Hasc" in
  assert (Hasc : sorted_asc [a; b; c; d; e] = [e; d; c; b; a])
    by (unfold sorted_asc; norm; reflexivity);
  let Hdesc := fresh "Hdesc" in
  assert (Hdesc : sorted_desc [a; b; c; d; e] = [a; b; c; d; e])
    by (unfold sorted_desc; norm; reflexivity);
  let Hmax := fresh "Hmax" in
  assert (Hmax : py_max [a; b; c; d; e] = Ok a) by (norm; reflexivity);
  let Hmin := fresh "Hmin" in
  assert (Hmin : py_min [a; b; c; d; e] = Ok e) by (norm; reflexivity);
  let Hcnt := fresh "Hcnt" in
  eassert (Hcnt : Counter [a; b; c; d; e] = _);
  [ unfold Counter; norm; reflexivity |];
  let Hset := fresh "Hset" in
  eassert (Hset : (len (set Z.eqb [a; b; c; d; e]) =? 5) = _);
  [ norm; reflexivity |];
  rewrite ?Hrc, ?Hst, ?Hasc, ?Hdesc, ?Hmax, ?Hmin, ?Hcnt, ?Hset;
  rewrite ?(seq_eqb_rev5 a b c d e 14 5 4 3 2),
          ?(seq_eqb_rev5 a b c d e 14 13 12 11 10).

(** The wheel and the royal ranks are tested against fixed lists. *)
Ltac split_fixed_ranks :=
  repeat match goal with
  | |- context [seq_eqb ?l ?k] =>
      let H := fresh "HE" in
      destruct (seq_eqb l k) eqn:H;
      [ apply seq_eqb_eq in H; injection H; intros; subst; try lia | ]
  end.

Ltac in_categories := cbn; repeat (first [left; reflexivity | right]).

Ltac classify_case a b c d e :=
  components a b c d e;
  split_fixed_ranks;
  cbn [bind];
  try match goal with
      | |- context [(?x - ?y =? 4)] => is_var x; destruct (x - y =? 4)
      end;
  match goal with fl : bool |- _ => destruct fl end;
  norm;
  eexists _, _, _, _, _;
  (split; [reflexivity | split; [reflexivity | in_categories]]).

Lemma agree_sorted a b c d e cards s1 s2 s3 s4 s5 :
  a >= b -> b >= c -> c >= d -> d >= e ->
  sorted_desc (map fst cards) = [a; b; c; d; e] ->
  map snd cards = [s1; s2; s3; s4; s5] ->
  agree (V01.evaluate_hand cards)
        (V2.evaluate_hand [(a, s1); (b, s2); (c, s3); (d, s4); (e, s5)]).
Proof.
  intros Hab Hbc Hcd Hde Hs Hsuits.
  unfold agree, V01.evaluate_hand, V2.evaluate_hand, V2.is_flush.
  cbn [map fst snd]. rewrite Hs, Hsuits.
  set (fl := len (set suit_eqb _) =? 1). clearbody fl. clear Hs Hsuits.
  assert (Eab : a = b \/ a > b) by lia.
  assert (Ebc : b = c \/ b > c) by lia.
  assert (Ecd : c = d \/ c > d) by lia.
  assert (Ede : d = e \/ d > e) by lia.
  clear Hab Hbc Hcd Hde.
  destruct Eab as [->|Eab], Ebc as [->|Ebc], Ecd as [->|Ecd], Ede as [->|Ede];
    match goal with
    | |- context [Counter [?a; ?b; ?c; ?d; ?e]] => classify_case a b c d e
    end.
Qed.

Lemma length5 {A : Type} (l : list A) :
  List.length l = 5%nat -> exists a b c d e, l = [a; b; c; d; e].
Proof.
  destruct l as [|a [|b [|c [|d [|e [|f l]]]]]]; try discriminate.
  intros _. now exists a, b, c, d, e.
Qed.

Lemma sorted_desc5 (l : list Z) :
  List.length l = 5%nat ->
  exists a b c d e,
    sorted_desc l = [a; b; c; d; e] /\ a >= b /\ b >= c /\ c >= d /\ d >= e.
Proof.
  intros Hl.
  destruct (length5 (sorted_desc l)) as (a & b & c & d & e & E).
  { unfold sorted_desc. now rewrite sorted_length. }
  exists a, b, c, d, e. split; [exact E|].
  pose proof (sorted_desc_sorted l) as Hs. rewrite E in Hs.
  repeat match goal with
         | H : StronglySorted _ (_ :: _) |- _ =>
             apply StronglySorted_inv in H; destruct H
         | H : Forall _ (_ :: _) |- _ => inversion H; subst; clear H
         end.
  lia.
Qed.

(** Every five-card hand is classified by both evaluators, and they agree on
    its category. *)
Lemma classify5 (hand : list card) :
  List.length hand = 5%nat ->
  agree (V01.evaluate_hand hand) (V2.evaluate_hand hand).
Proof.
  intros Hl.
  destruct (sorted_desc5 (map fst hand)) as (a & b & c & d & e & E & Hord).
  { now rewrite length_map. }
  destruct (length5 hand Hl) as ([r1 s1] & [r2 s2] & [r3 s3] & [r4 s4] & [r5 s5] & ->).
  rewrite (V2_evaluate_hand_perm _ [(a, s1); (b, s2); (c, s3); (d, s4); (e, s5)]).
  - apply agree_sorted; solve [tauto | reflexivity].
  - cbn [map fst]. rewrite <- E. symmetry. apply sorted_perm.
  - reflexivity.
Qed.

(** * The order on evaluations *)

Lemma seq_ltb_irrefl (l : list Z) : seq_ltb l l = false.
Proof. induction l as [|x t IH]; simpl; [reflexivity|]. now rewrite Z.eqb_refl. Qed.

Lemma seq_ltb_asym (l1 l2 : list Z) :
  seq_ltb l1 l2 = true -> seq_ltb l2 l1 = false.
Proof.
  revert l2. induction l1 as [|x t IH]; intros [|y u]; simpl; try congruence.
  rewrite (Z.eqb_sym y x). destruct (Z.eqb_spec x y); [apply IH|].
  intros H. apply Z.ltb_lt in H. apply Z.ltb_ge. lia.
Qed.

Lemma seq_ltb_trans (l1 l2 l3 : list Z) :
  seq_ltb l1 l2 = true -> seq_ltb l2 l3 = true -> seq_ltb l1 l3 = true.
Proof.
  revert l2 l3.
  induction l1 as [|x t IH]; intros [|y u] [|z v]; simpl; try congruence.
  destruct (Z.eqb_spec x y), (Z.eqb_spec y z), (Z.eqb_spec x z);
    rewrite ?Z.ltb_lt; try lia; try apply IH; congruence.
Qed.

Lemma seq_ltb_total (l1 l2 : list Z) :
  seq_ltb l1 l2 = false -> seq_ltb l2 l1 = false -> l1 = l2.
Proof.
  revert l2. induction l1 as [|x t IH]; intros [|y u]; simpl; try congruence.
  rewrite (Z.eqb_sym y x). destruct (Z.eqb_spec x y).
  - intros H1 H2. subst. f_equal. now apply IH.
  - rewrite !Z.ltb_ge. lia.
Qed.

Lemma eval_ltb_irrefl (e : V2.evaluation) : V2.eval_ltb e e = false.
Proof. unfold V2.eval_ltb. rewrite Z.eqb_refl. apply seq_ltb_irrefl. Qed.

Lemma eval_ltb_asym (e1 e2 : V2.evaluation) :
  V2.eval_ltb e1 e2 = true -> V2.eval_ltb e2 e1 = false.
Proof.
  unfold V2.eval_ltb. rewrite (Z.eqb_sym (fst e2)).
  destruct (Z.eqb_spec (fst e1) (fst e2)); [apply seq_ltb_asym|].
  rewrite Z.ltb_lt, Z.ltb_ge. lia.
Qed.

Lemma eval_ltb_trans (e1 e2 e3 : V2.evaluation) :
  V2.eval_ltb e1 e2 = true -> V2.eval_ltb e2 e3 = true ->
  V2.eval_ltb e1 e3 = true.
Proof.
  unfold V2.eval_ltb.
  destruct (Z.eqb_spec (fst e1) (fst e2)), (Z.eqb_spec (fst e2) (fst e3)),
    (Z.eqb_spec (fst e1) (fst e3));
    rewrite ?Z.ltb_lt; try lia; try apply seq_ltb_trans; congruence.
Qed.

Lemma eval_ltb_total (e1 e2 : V2.evaluation) :
  V2.eval_ltb e1 e2 = false -> V2.eval_ltb e2 e1 = false -> e1 = e2.
Proof.
  unfold V2.eval_ltb. destruct e1 as [c1 t1], e2 as [c2 t2]; simpl.
  rewrite (Z.eqb_sym c2 c1). destruct (Z.eqb_spec c1 c2).
  - intros H1 H2. subst. f_equal. now apply seq_ltb_total.
  - rewrite !Z.ltb_ge. lia.
Qed.

Lemma eval_eqb_eq (e1 e2 : V2.evaluation) : V2.eval_eqb e1 e2 = true <-> e1 = e2.
Proof.
  unfold V2.eval_eqb. destruct e1 as [c1 t1], e2 as [c2 t2]; simpl.
  rewrite andb_true_iff, Z.eqb_eq, seq_eqb_eq.
  split; [intros [-> ->]; reflexivity | intros E; inversion E; auto].
Qed.

(** Not worse, then not worse again, is not worse. *)
Lemma eval_before_trans (e1 e2 e3 : V2.evaluation) :
  V2.eval_ltb e2 e1 = false -> V2.eval_ltb e3 e2 = false ->
  V2.eval_ltb e3 e1 = false.
Proof.
  intros H1 H2. destruct (V2.eval_ltb e3 e1) eqn:H3; [|reflexivity].
  destruct (V2.eval_ltb e1 e2) eqn:H4.
  - rewrite (eval_ltb_trans _ _ _ H3 H4) in H2. discriminate.
  - rewrite (eval_ltb_total _ _ H4 H1) in H3. congruence.
Qed.

(** * Consequences of the classification *)

Lemma categories_inv (idx : Z) (label : string) (rank : Z) :
  In (idx, label, rank) categories ->
  0 <= idx <= 9 /\ rank = 10 - idx /\ In label labels /\
  exists name, V2.lookup V2.hand_names idx = Ok name.
Proof.
  intros H. cbn in H.
  repeat (destruct H as [H|H];
          [inversion H; subst; cbn; repeat split; try lia; eauto 12|]).
  contradiction.
Qed.

Lemma V01_evaluate5 (hand : list card) :
  List.length hand = 5%nat ->
  exists label rank bc,
    V01.evaluate_hand hand = Ok (label, rank, bc) /\
    In label labels /\ 1 <= rank <= 10.
Proof.
  intros Hl. destruct (classify5 hand Hl) as (idx & tb & label & rank & bc & _ & E & Hc).
  exists label, rank, bc. apply categories_inv in Hc. intuition lia.
Qed.

Lemma V2_evaluate5 (hand : list card) :
  List.length hand = 5%nat ->
  exists idx tb name,
    V2.evaluate_hand hand = Ok (idx, tb) /\ 0 <= idx <= 9 /\
    V2.get_hand_name hand = Ok name.
Proof.
  intros Hl. destruct (classify5 hand Hl) as (idx & tb & label & rank & bc & E & _ & Hc).
  apply categories_inv in Hc. destruct Hc as (Hi & _ & _ & name & Hn).
  exists idx, tb, name. unfold V2.get_hand_name. rewrite E. cbn [bind fst].
  auto.
Qed.

(** ** [combinations] *)
Lemma combinations_length {A : Type} (l : list A) (k : nat) (combo : list A) :
  In combo (combinations l k) -> List.length combo = k.
Proof.
  revert k combo. induction l as [|x t IH]; intros [|k] combo; simpl;
    try (intros [<-|[]]; reflexivity); try contradiction.
  rewrite in_app_iff, in_map_iff. intros [(c0 & <- & Hc)|Hc].
  - simpl. f_equal. now apply IH.
  - now apply IH.
Qed.

Lemma combinations_incl {A : Type} (l : list A) (k : nat) (combo : list A) :
  In combo (combinations l k) -> incl combo l.
Proof.
  revert k combo. induction l as [|x t IH]; intros [|k] combo; simpl;
    try (intros [<-|[]]; apply incl_nil_l); try contradiction.
  rewrite in_app_iff, in_map_iff. intros [(c0 & <- & Hc)|Hc].
  - apply incl_cons; [now left|]. apply incl_tl. eapply IH, Hc.
  - apply incl_tl. eapply IH, Hc.
Qed.

Lemma combinations_nonempty {A : Type} (l : list A) (k : nat) :
  (k <= List.length l)%nat -> combinations l k <> [].
Proof.
  revert k. induction l as [|x t IH]; intros [|k] Hk; simpl in *;
    try discriminate; try lia.
  specialize (IH k ltac:(lia)).
  destruct (combinations t k); [contradiction | discriminate].
Qed.

(** * The loop of [texas_holdem_score] *)

Lemma step_cases (best : V01.score) (combo : list card) :
  List.length combo = 5%nat ->
  exists best',
    V01.step best combo = Ok best' /\ (best' = best \/ candidate [combo] best').
Proof.
  intros Hl. destruct (V01_evaluate5 combo Hl) as (label & rank & bc & E & _ & _).
  unfold V01.step. rewrite E. cbn [bind].
  destruct best as [[[ht br] bcs] brs].
  destruct ((br <? rank) || ((br =? rank) && seq_ltb brs _)).
  - eexists. split; [reflexivity|]. right.
    exists combo, label, rank, bc. repeat split; [now left | exact E].
  - eexists. split; [reflexivity|]. now left.
Qed.

Lemma step_sentinel (combo : list card) :
  List.length combo = 5%nat ->
  exists best', V01.step V01.sentinel combo = Ok best' /\ candidate [combo] best'.
Proof.
  intros Hl. destruct (V01_evaluate5 combo Hl) as (label & rank & bc & E & _ & Hr).
  unfold V01.step, V01.sentinel. rewrite E. cbn [bind].
  replace (0 <? rank) with true by (symmetry; apply Z.ltb_lt; lia).
  cbn [orb]. eexists. split; [reflexivity|].
  exists combo, label, rank, bc. repeat split; [now left | exact E].
Qed.

Lemma candidate_incl (l1 l2 : list (list card)) (sc : V01.score) :
  incl l1 l2 -> candidate l1 sc -> candidate l2 sc.
Proof.
  intros Hi (combo & label & rank & bc & Hin & E & ->).
  exists combo, label, rank, bc. auto.
Qed.

Lemma for_each_step (combos : list (list card)) (best : V01.score) :
  Forall (fun combo => List.length combo = 5%nat) combos ->
  exists best',
    for_each V01.step best combos = Ok best' /\
    (best' = best \/ candidate combos best').
Proof.
  intros Hall. revert best.
  induction Hall as [|combo t Hl Hall IH]; intros best; simpl.
  - exists best. auto.
  - destruct (step_cases best combo Hl) as (b1 & -> & Hb1). cbn [bind].
    destruct (IH b1) as (b2 & -> & Hb2). exists b2. split; [reflexivity|].
    destruct Hb2 as [->|Hc].
    + destruct Hb1 as [->|Hc]; [now left | right].
      eapply candidate_incl; [|exact Hc]. intros x [<-|[]]. now left.
    + right. eapply candidate_incl; [|exact Hc]. apply incl_tl, incl_refl.
Qed.

(** Over a non-empty enumeration of five-card hands the loop ends on one of
    the hands it has evaluated, never on the sentinel. *)
Lemma best_of_candidate (combos : list (list card)) :
  combos <> [] ->
  Forall (fun combo => List.length combo = 5%nat) combos ->
  exists best, V01.best_of combos = Ok best /\ candidate combos best.
Proof.
  intros Hne Hall. destruct combos as [|combo t]; [contradiction|].
  inversion Hall as [|? ? Hl Ht]; subst.
  unfold V01.best_of. simpl.
  destruct (step_sentinel combo Hl) as (b1 & -> & Hb1). cbn [bind].
  destruct (for_each_step t b1 Ht) as (b2 & -> & Hb2).
  exists b2. split; [reflexivity|].
  destruct Hb2 as [->|Hc].
  - eapply candidate_incl; [|exact Hb1]. intros x [<-|[]]. now left.
  - eapply candidate_incl; [|exact Hc]. apply incl_tl, incl_refl.
Qed.

Lemma combinations5_all (seven_cards : list card) :
  Forall (fun combo => List.length combo = 5%nat) (combinations seven_cards 5).
Proof. apply Forall_forall. intros combo. apply combinations_length. Qed.

Lemma texas_holdem_score_seven (seven_cards : list card) :
  List.length seven_cards = 7%nat ->
  exists combo label rank bc,
    V01.texas_holdem_score seven_cards = Ok (Some label, rank, bc) /\
    In combo (combinations seven_cards 5) /\
    V01.evaluate_hand combo = Ok (label, rank, bc).
Proof.
  intros Hl. unfold V01.texas_holdem_score, len. rewrite Hl. cbn [Z.of_nat negb].
  change (Z.pos (Pos.of_succ_nat 6) =? 7) with true. cbn [negb].
  destruct (best_of_candidate (combinations seven_cards 5)) as (best & -> & Hc).
  - apply combinations_nonempty. lia.
  - apply combinations5_all.
  - destruct Hc as (combo & label & rank & bc & Hin & E & ->). cbn [bind].
    now exists combo, label, rank, bc.
Qed.

Lemma texas_holdem_score_not_seven (seven_cards : list card) :
  List.length seven_cards <> 7%nat ->
  V01.texas_holdem_score seven_cards =
  Raise (ValueError "Exactly seven cards are required").
Proof.
  intros Hl. unfold V01.texas_holdem_score, len.
  destruct (Z.eqb_spec (Z.of_nat (List.length seven_cards)) 7); [lia | reflexivity].
Qed.

(** ** What the loop maximises *)

(** The test of the loop is Python's [<] on the pairs [(hand_rank, ranks)]. *)
Lemma step_key (best : V01.score) (combo : list card) (r : string * Z * list card) :
  V01.evaluate_hand combo = Ok r ->
  exists best',
    V01.step best combo = Ok best' /\
    (if V2.eval_ltb (score_key best) (hand_key r)
     then score_key best' = hand_key r
     else best' = best).
Proof.
  intros E. unfold V01.step. rewrite E. cbn [bind].
  destruct r as [[label rank] bc], best as [[[ht br] bcs] brs].
  unfold V2.eval_ltb, score_key, hand_key. cbn [fst snd].
  destruct (Z.eqb_spec br rank) as [->|N].
  - rewrite Z.ltb_irrefl. cbn [orb andb].
    destruct (seq_ltb brs _); eexists; split; reflexivity.
  - cbn [andb]. rewrite orb_false_r.
    destruct (br <? rank); eexists; split; reflexivity.
Qed.

Lemma for_each_step_max (combos : list (list card)) :
  Forall (fun combo => List.length combo = 5%nat) combos ->
  forall best,
  exists best',
    for_each V01.step best combos = Ok best' /\
    V2.eval_ltb (score_key best') (score_key best) = false /\
    forall combo r,
      In combo combos -> V01.evaluate_hand combo = Ok r ->
      V2.eval_ltb (score_key best') (hand_key r) = false.
Proof.
  induction 1 as [|combo t Hl Hall IH]; intros best; simpl.
  - exists best. split; [reflexivity|]. split; [apply eval_ltb_irrefl|].
    intros ? ? [].
  - destruct (V01_evaluate5 combo Hl) as (label & rank & bc & E & _).
    destruct (step_key best combo _ E) as (b1 & Hs & Hb1). rewrite Hs. cbn [bind].
    destruct (IH b1) as (b2 & -> & Hge & Hmax).
    exists b2. split; [reflexivity|].
    assert (H1 : V2.eval_ltb (score_key b1) (score_key best) = false /\
                 V2.eval_ltb (score_key b1) (hand_key (label, rank, bc)) = false).
    { destruct (V2.eval_ltb (score_key best) (hand_key (label, rank, bc))) eqn:C.
      - rewrite Hb1. split; [now apply eval_ltb_asym | apply eval_ltb_irrefl].
      - subst b1. split; [apply eval_ltb_irrefl | exact C]. }
    destruct H1 as [H1 H2]. split.
    + eapply eval_before_trans; eassumption.
    + intros combo' r [<-|Hin] E'.
      * rewrite E in E'. inversion E'; subst.
        eapply eval_before_trans; eassumption.
      * eapply Hmax; eassumption.
Qed.

(** The loop ends on a hand whose key no evaluated hand exceeds. *)
Lemma best_of_max (combos : list (list card)) :
  combos <> [] ->
  Forall (fun combo => List.length combo = 5%nat) combos ->
  exists best,
    V01.best_of combos = Ok best /\ candidate combos best /\
    forall combo r,
      In combo combos -> V01.evaluate_hand combo = Ok r ->
      V2.eval_ltb (score_key best) (hand_key r) = false.
Proof.
  intros Hne Hall.
  destruct (best_of_candidate combos Hne Hall) as (best & E & Hc).
  exists best. split; [exact E|]. split; [exact Hc|].
  unfold V01.best_of in E.
  destruct (for_each_step_max combos Hall V01.sentinel) as (b & E' & _ & Hmax).
  rewrite E in E'. inversion E'; subst. exact Hmax.
Qed.

Lemma candidate_key (combos : list (list card)) (best : V01.score) :
  candidate combos best ->
  exists combo r,
    In combo combos /\ V01.evaluate_hand combo = Ok r /\
    score_key best = hand_key r /\ fst (fst (fst best)) = Some (fst (fst r)).
Proof.
  intros (combo & label & rank & bc & Hin & E & ->).
  exists combo, (label, rank, bc). auto.
Qed.

Lemma categories_label_of_rank (i1 i2 : Z) (l1 l2 : string) (r : Z) :
  In (i1, l1, r) categories -> In (i2, l2, r) categories -> l1 = l2.
Proof.
  intros H1 H2. cbn in H1, H2.
  repeat (destruct H1 as [H1|H1]; [inversion H1; subst; clear H1|]);
    try contradiction;
    repeat (destruct H2 as [H2|H2]; [inversion H2; subst; clear H2|]);
    try contradiction; reflexivity.
Qed.

(** The order in which the hands are enumerated does not change the
    [hand_type], the [hand_rank] or the ranks of the [best_cards]. *)
Lemma best_of_order_independent (combos combos' : list (list card)) :
  Permutation combos combos' ->
  combos <> [] ->
  Forall (fun combo => List.length combo = 5%nat) combos ->
  exists best best',
    V01.best_of combos = Ok best /\ V01.best_of combos' = Ok best' /\
    score_key best = score_key best' /\
    fst (fst (fst best)) = fst (fst (fst best')).
Proof.
  intros HP Hne Hall.
  assert (Hne' : combos' <> []).
  { intros ->. apply Permutation_sym, Permutation_nil in HP. contradiction. }
  assert (Hall' : Forall (fun combo => List.length combo = 5%nat) combos').
  { rewrite Forall_forall in *. intros x Hx. apply Hall.
    eapply Permutation_in; [apply Permutation_sym|]; eassumption. }
  destruct (best_of_max combos Hne Hall) as (b & E & Hc & Hmax).
  destruct (best_of_max combos' Hne' Hall') as (b' & E' & Hc' & Hmax').
  exists b, b'. split; [exact E|]. split; [exact E'|].
  destruct (candidate_key _ _ Hc) as (k & r & Hin & Hev & Hk & Hl).
  destruct (candidate_key _ _ Hc') as (k' & r' & Hin' & Hev' & Hk' & Hl').
  assert (Hkey : score_key b = score_key b').
  { apply eval_ltb_total.
    - rewrite Hk'. apply (Hmax k' r'); [|exact Hev'].
      eapply Permutation_in; [apply Permutation_sym|]; eassumption.
    - rewrite Hk. apply (Hmax' k r); [|exact Hev].
      eapply Permutation_in; eassumption. }
  split; [exact Hkey|].
  rewrite Hl, Hl'. f_equal.
  destruct r as [[l rk] bc], r' as [[l' rk'] bc']. cbn [fst].
  rewrite Hk, Hk' in Hkey. cbn in Hkey. inversion Hkey; subst.
  assert (L5 : List.length k = 5%nat)
    by (rewrite Forall_forall in Hall; now apply Hall).
  assert (L5' : List.length k' = 5%nat)
    by (rewrite Forall_forall in Hall'; now apply Hall').
  destruct (classify5 k L5) as (i1 & ? & l1 & r1 & ? & _ & F1 & C1).
  destruct (classify5 k' L5') as (i2 & ? & l2 & r2 & ? & _ & F2 & C2).
  rewrite Hev in F1. rewrite Hev' in F2. inversion F1; inversion F2; subst.
  eapply categories_label_of_rank; eassumption.
Qed.

(** On seven cards: the hand returned has the greatest pair
    [(hand_rank, ranks of best_cards)] among the 21 combinations. *)
Lemma texas_holdem_score_max_key (seven_cards : list card) :
  List.length seven_cards = 7%nat ->
  exists label rank bc,
    V01.texas_holdem_score seven_cards = Ok (Some label, rank, bc) /\
    forall combo r,
      In combo (combinations seven_cards 5) ->
      V01.evaluate_hand combo = Ok r ->
      V2.eval_ltb (rank, sorted_desc (map fst bc)) (hand_key r) = false.
Proof.
  intros Hl. unfold V01.texas_holdem_score, len. rewrite Hl.
  change (Z.of_nat 7 =? 7) with true. cbn [negb].
  destruct (best_of_max (combinations seven_cards 5)) as (best & -> & Hc & Hmax).
  - apply combinations_nonempty. lia.
  - apply combinations5_all.
  - destruct Hc as (combo & label & rank & bc & Hin & E & ->). cbn [bind].
    exists label, rank, bc. split; [reflexivity | exact Hmax].
Qed.

(** * The ranking script *)

Lemma evaluate_all (hands : list (list card)) (acc : list (list card * V2.evaluation)) :
  Forall (fun hand => List.length hand = 5%nat) hands ->
  exists hes,
    for_each (fun acc hand => e <- V2.evaluate_hand hand ;; Ok (acc ++ [(hand, e)]))
             acc hands = Ok (acc ++ hes) /\
    map fst hes = hands /\
    Forall (fun he => V2.evaluate_hand (fst he) = Ok (snd he)) hes.
Proof.
  intros Hall. revert acc.
  induction Hall as [|hand t Hl Hall IH]; intros acc; simpl.
  - exists []. rewrite app_nil_r. auto.
  - destruct (V2_evaluate5 hand Hl) as (idx & tb & name & E & _ & _).
    rewrite E. cbn [bind].
    destruct (IH (acc ++ [(hand, (idx, tb))])) as (hes & Hfor & Hm & Hf).
    exists ((hand, (idx, tb)) :: hes).
    split; [|split; [simpl; now f_equal | now constructor]].
    replace (acc ++ (hand, (idx, tb)) :: hes)
      with ((acc ++ [(hand, (idx, tb))]) ++ hes)
      by (rewrite <- app_assoc; reflexivity).
    exact Hfor.
Qed.

Lemma rank_loop (L : list (list card * V2.evaluation)) :
  Forall (fun he => List.length (fst he) = 5%nat) L ->
  forall i df cur prev,
  exists rows cur' prev',
    for_each V2.rank_step (df, cur, prev) (V2.enumerate_from i L) =
      Ok (df ++ rows, cur', prev') /\
    ranked i cur prev L rows.
Proof.
  induction 1 as [|[hand e] L Hl Hall IH]; intros i df cur prev; simpl.
  - exists [], cur, prev. rewrite app_nil_r. split; [reflexivity|].
    split; [reflexivity|]. intros [|k] he r; discriminate.
  - destruct (V2_evaluate5 hand Hl) as (idx & tb & name & _ & _ & Hn).
    rewrite Hn. cbn [bind].
    set (cur0 := if V2.differs e prev then i + 1 else cur).
    destruct (IH (i + 1) (df ++ [V2.mk_row hand name cur0]) cur0 (Some e))
      as (rows & cur' & prev' & Hfor & Hlen & Hrows).
    exists (V2.mk_row hand name cur0 :: rows), cur', prev'.
    split.
    { replace (df ++ V2.mk_row hand name cur0 :: rows)
        with ((df ++ [V2.mk_row hand name cur0]) ++ rows)
        by (rewrite <- app_assoc; reflexivity).
      exact Hfor. }
    split; [simpl; now f_equal|].
    intros [|k] he r HL HR; simpl in HL, HR.
    + inversion HL; inversion HR; subst. simpl. auto.
    + destruct (Hrows k he r HL HR) as (Hh & Hname & Hk).
      split; [exact Hh|]. split; [exact Hname|].
      intros he' r' HL' HR'. destruct k as [|k]; simpl in HL', HR'.
      * inversion HL'; inversion HR'; subst. simpl in *. rewrite Hk.
        destruct (V2.eval_eqb (snd he) e); simpl; lia.
      * rewrite (Hk he' r' HL' HR').
        destruct (V2.eval_eqb (snd he) (snd he')); lia.
Qed.

(** * Auxiliary facts for the properties *)

(** ** Lists by position *)

Lemma StronglySorted_nth {A : Type} (R : A -> A -> Prop) (l : list A)
    (i j : nat) (x y : A) :
  StronglySorted R l -> (i < j)%nat ->
  nth_error l i = Some x -> nth_error l j = Some y -> R x y.
Proof.
  intros Hs. revert i j. induction Hs as [|a t Hs IH Hall]; intros i j Hij Hi Hj.
  - destruct i; discriminate.
  - destruct j as [|j]; [lia|]. simpl in Hj. destruct i as [|i]; simpl in Hi.
    + inversion Hi; subst. rewrite Forall_forall in Hall.
      apply Hall. eapply nth_error_In, Hj.
    + apply (IH i j); [lia | assumption | assumption].
Qed.

Lemma map_eq_nth {A B C : Type} (f : A -> C) (g : B -> C)
    (rows : list A) (L : list B) :
  List.length rows = List.length L ->
  (forall k he r, nth_error L k = Some he -> nth_error rows k = Some r ->
                  f r = g he) ->
  map f rows = map g L.
Proof.
  revert L. induction rows as [|r rows IH]; intros [|he L] Hlen H;
    try discriminate; [reflexivity|].
  simpl. f_equal.
  - apply (H O); reflexivity.
  - apply IH; [simpl in Hlen; lia|]. intros k. apply (H (S k)).
Qed.

Lemma nth_error_same_length {A B : Type} (l1 : list A) (l2 : list B)
    (k : nat) (x : A) :
  List.length l1 = List.length l2 -> nth_error l1 k = Some x ->
  exists y, nth_error l2 k = Some y.
Proof.
  intros Hlen Hk.
  destruct (nth_error l2 k) as [y|] eqn:E; [now exists y|].
  apply nth_error_None in E.
  assert (nth_error l1 k <> None) by congruence.
  apply nth_error_Some in H. lia.
Qed.

(** ** Hands given by their ranks *)

Lemma V01_is_flush (hand : list card) :
  (len (set suit_eqb (map snd hand)) =? 1) = V2.is_flush (map snd hand).
Proof. reflexivity. Qed.

(** ** Seven given cards, in any order *)

Lemma interleave_In {A : Type} (x : A) (l1 l2 : list A) :
  In (l1 ++ x :: l2) (interleave x (l1 ++ l2)).
Proof.
  induction l1 as [|y l1 IH]; simpl.
  - destruct l2; simpl; left; reflexivity.
  - right. apply (in_map (cons y)). exact IH.
Qed.

Lemma arrangements_complete {A : Type} (l l' : list A) :
  Permutation l l' -> In l' (arrangements l).
Proof.
  revert l'. induction l as [|x t IH]; intros l' HP; simpl.
  - apply Permutation_nil in HP. now left.
  - assert (Hx : In x l') by (eapply Permutation_in; [exact HP | now left]).
    destruct (in_split x l' Hx) as (l1 & l2 & ->).
    apply Permutation_cons_app_inv in HP.
    apply in_flat_map. exists (l1 ++ l2). split; [now apply IH|].
    apply interleave_In.
Qed.

Lemma is_four_of_a_kind_spec (tiebreak : list Z)
    (r : result (option string * Z * list card)) :
  is_four_of_a_kind tiebreak r = true ->
  exists bc, r = Ok (Some "4k", 8, bc) /\ V2.evaluate_hand bc = Ok (2, tiebreak).
Proof.
  unfold is_four_of_a_kind.
  destruct r as [[[[label|] rank] bc]|]; try discriminate.
  destruct (V2.evaluate_hand bc) as [[idx tb]|] eqn:E;
    rewrite ?andb_false_r; try discriminate.
  rewrite !andb_true_iff, String.eqb_eq, !Z.eqb_eq, seq_eqb_eq.
  intros [[-> ->] [-> ->]]. exists bc. split; [reflexivity | exact E].
Qed.

Lemma quad_aces_all_arrangements :
  forallb (fun l => is_four_of_a_kind [-14; -13] (V01.texas_holdem_score l))
          (arrangements quad_aces) = true.
Proof. vm_compute. reflexivity. Qed.

(** * Properties stated by the specification *)

(** C1 fails on the code: with A, 2, 3, 4, 5, 6, 9 on the table
    [texas_holdem_score] keeps the wheel, evaluated [(5, (-5,))], although
    the combination 2-3-4-5-6, evaluated [(5, (-6,))], is among the 21 and
    sorts strictly before it. *)
Theorem texas_holdem_score_keeps_wheel :
  V01.texas_holdem_score wheel_and_six = Ok (Some "ST", 5, wheel) /\
  V2.evaluate_hand wheel = Ok (5, [-5]) /\
  In six_high (combinations wheel_and_six 5) /\
  V01.evaluate_hand six_high = Ok ("ST", 5, six_high) /\
  V2.evaluate_hand six_high = Ok (5, [-6]) /\
  V2.eval_ltb (5, [-6]) (5, [-5]) = true.
Proof.
  repeat split; try (vm_compute; reflexivity).
  vm_compute. do 15 right. left. reflexivity.
Qed.

(** C2: a hand with the ranks A, 2, 3, 4, 5 whose suits are not all equal is
    a straight whose tie-break is 5 (pokercombos.py returns [(5, (-5,))]), so
    that every 6-high straight, [(5, (-6,))], sorts strictly before it;
    poker.py gives it the label ST. *)
Theorem wheel_is_five_high (hand six : list card) :
  Permutation (map fst hand) [14; 2; 3; 4; 5] ->
  V2.is_flush (map snd hand) = false ->
  Permutation (map fst six) [6; 5; 4; 3; 2] ->
  V2.is_flush (map snd six) = false ->
  exists e_hand e_six,
    V2.evaluate_hand hand = Ok e_hand /\ e_hand = (5, [-5]) /\
    V2.evaluate_hand six = Ok e_six /\ e_six = (5, [-6]) /\
    V2.eval_ltb e_six e_hand = true /\ V2.eval_ltb e_hand e_six = false /\
    V01.evaluate_hand hand = Ok ("ST", 5, hand).
Proof.
  intros HP Hf HP6 Hf6.
  assert (Hs : sorted_desc (map fst hand) = [14; 5; 4; 3; 2])
    by (rewrite (sorted_desc_perm _ _ HP); reflexivity).
  assert (HP6' : Permutation (map fst six) (map fst six_high)).
  { rewrite HP6. apply Permutation_rev. }
  exists (5, [-5]), (5, [-6]). repeat split.
  - rewrite (V2_evaluate_hand_perm hand wheel HP Hf). reflexivity.
  - rewrite (V2_evaluate_hand_perm six six_high HP6' Hf6). reflexivity.
  - unfold V01.evaluate_hand. rewrite Hs, V01_is_flush, Hf. reflexivity.
Qed.

Lemma wheel_is_five_high_witness :
  Permutation (map fst wheel) [14; 2; 3; 4; 5] /\
  V2.is_flush (map snd wheel) = false /\
  Permutation (map fst six_high) [6; 5; 4; 3; 2] /\
  V2.is_flush (map snd six_high) = false /\
  exists e_hand e_six,
    V2.evaluate_hand wheel = Ok e_hand /\ e_hand = (5, [-5]) /\
    V2.evaluate_hand six_high = Ok e_six /\ e_six = (5, [-6]) /\
    V2.eval_ltb e_six e_hand = true /\ V2.eval_ltb e_hand e_six = false /\
    V01.evaluate_hand wheel = Ok ("ST", 5, wheel).
Proof.
  assert (P1 : Permutation (map fst wheel) [14; 2; 3; 4; 5])
    by apply Permutation_refl.
  assert (P2 : Permutation (map fst six_high) [6; 5; 4; 3; 2])
    by apply (Permutation_rev [2; 3; 4; 5; 6]).
  repeat (split; [first [exact P1 | exact P2 | reflexivity]|]).
  apply (wheel_is_five_high wheel six_high P1 eq_refl P2 eq_refl).
Defined.

(** C3, as stated, fails: neither evaluator checks the size of the hand.  On
    four cards of different ranks both return a classification, so "raises
    if and only if the length is not 5" is false at [four_cards].  On the
    empty hand poker.py returns a high card, and pokercombos.py stops on
    [rank_counts[0]] with an [IndexError]. *)
Lemma evaluate_hand_no_size_check :
  ~ ((exists e, V2.evaluate_hand four_cards = Raise e) <->
     List.length four_cards <> 5%nat) /\
  ~ ((exists e, V01.evaluate_hand four_cards = Raise e) <->
     List.length four_cards <> 5%nat) /\
  V2.evaluate_hand four_cards = Ok (9, [-8; -6; -4; -3]) /\
  V01.evaluate_hand four_cards = Ok ("HC", 1, four_cards) /\
  V01.evaluate_hand [] = Ok ("HC", 1, []) /\
  V2.evaluate_hand [] = Raise IndexError.
Proof.
  assert (E2 : V2.evaluate_hand four_cards = Ok (9, [-8; -6; -4; -3]))
    by reflexivity.
  assert (E1 : V01.evaluate_hand four_cards = Ok ("HC", 1, four_cards))
    by reflexivity.
  repeat split; try assumption.
  - intros [_ H]. destruct H as [e He]; [discriminate|]. congruence.
  - intros [_ H]. destruct H as [e He]; [discriminate|]. congruence.
Qed.

(** C3, amended: on every input of exactly five cards neither evaluator
    raises; so an error, when there is one, means that the length is not 5. *)
Theorem evaluate_hand_five_cards_no_error (hand : list card) :
  List.length hand = 5%nat ->
  (exists r, V2.evaluate_hand hand = Ok r) /\
  (exists r, V01.evaluate_hand hand = Ok r) /\
  (forall e, V2.evaluate_hand hand <> Raise e) /\
  (forall e, V01.evaluate_hand hand <> Raise e).
Proof.
  intros Hl.
  destruct (classify5 hand Hl) as (idx & tb & label & rank & bc & E2 & E1 & _).
  rewrite E1, E2. repeat split; eauto; discriminate.
Qed.

Lemma evaluate_hand_five_cards_no_error_witness :
  List.length broadway_mixed = 5%nat /\
  (exists r, V2.evaluate_hand broadway_mixed = Ok r) /\
  (exists r, V01.evaluate_hand broadway_mixed = Ok r) /\
  (forall e, V2.evaluate_hand broadway_mixed <> Raise e) /\
  (forall e, V01.evaluate_hand broadway_mixed <> Raise e).
Proof.
  split; [reflexivity|].
  apply (evaluate_hand_five_cards_no_error broadway_mixed). reflexivity.
Defined.

(** C4: the ranking script sorts the hands best first and ranks them by
    competition ranking.  For five-card hands [rank_all] returns rows that
    are a rearrangement of the input; the first row has rank 1; and for a row
    [r] right after a row [p], at 0-based index [S k], the evaluation of [r]
    is not better than that of [p], [r] has the rank of [p] when the two
    evaluations are equal, and otherwise is strictly worse and has its
    1-based position [S k + 1] as rank. *)
Theorem rank_all_competition_ranks (hands : list (list card)) :
  Forall (fun hand => List.length hand = 5%nat) hands ->
  exists rows,
    V2.rank_all hands = Ok rows /\
    Permutation (map V2.Hand rows) hands /\
    (forall r, nth_error rows 0 = Some r -> V2.Rank r = 1) /\
    (forall k p r,
        nth_error rows k = Some p -> nth_error rows (S k) = Some r ->
        exists ep er,
          V2.evaluate_hand (V2.Hand p) = Ok ep /\
          V2.evaluate_hand (V2.Hand r) = Ok er /\
          V2.eval_ltb er ep = false /\
          (er = ep -> V2.Rank r = V2.Rank p) /\
          (er <> ep ->
           V2.eval_ltb ep er = true /\ V2.Rank r = Z.of_nat (S k) + 1)).
Proof.
  intros Hall. unfold V2.rank_all.
  destruct (evaluate_all hands [] Hall) as (hes & -> & Hm & Hev). cbn [bind app].
  set (lt := fun x y : list card * V2.evaluation => V2.eval_ltb (snd x) (snd y)).
  set (S0 := sorted lt hes).
  assert (HP : Permutation S0 hes) by apply sorted_perm.
  assert (Hsorted : StronglySorted (before lt) S0).
  { apply sorted_sorted.
    - intros x y. apply eval_ltb_asym.
    - intros x y z. apply eval_before_trans. }
  assert (Hev' : Forall (fun he => V2.evaluate_hand (fst he) = Ok (snd he)) S0).
  { rewrite Forall_forall in *. intros he Hin. apply Hev.
    eapply Permutation_in; eassumption. }
  assert (Hl5 : Forall (fun he => List.length (fst he) = 5%nat) S0).
  { rewrite Forall_forall in *. intros he Hin. apply Hall.
    rewrite <- Hm. apply in_map. eapply Permutation_in; eassumption. }
  destruct (rank_loop S0 Hl5 0 [] 1 None) as (rows & cur' & prev' & Hfor & Hlen & Hrows).
  unfold V2.enumerate. rewrite Hfor. cbn [bind app]. exists rows.
  split; [reflexivity|]. split; [|split].
  - rewrite (map_eq_nth V2.Hand fst rows S0 Hlen).
    + rewrite <- Hm. now apply Permutation_map.
    + intros k he r HL HR. now destruct (Hrows k he r HL HR).
  - intros r Hr.
    destruct (nth_error_same_length rows S0 0 r Hlen Hr) as (he & Hhe).
    destruct (Hrows O he r Hhe Hr) as (_ & _ & Hk). exact Hk.
  - intros k p r Hp Hr.
    destruct (nth_error_same_length rows S0 k p Hlen Hp) as (hp & Hhp).
    destruct (nth_error_same_length rows S0 (S k) r Hlen Hr) as (hr & Hhr).
    destruct (Hrows k hp p Hhp Hp) as (Hhand_p & _ & _).
    destruct (Hrows (S k) hr r Hhr Hr) as (Hhand_r & _ & Hk).
    specialize (Hk hp p Hhp Hp).
    rewrite Forall_forall in Hev'.
    exists (snd hp), (snd hr).
    rewrite Hhand_p, Hhand_r.
    split; [apply Hev'; eapply nth_error_In; eassumption|].
    split; [apply Hev'; eapply nth_error_In; eassumption|].
    assert (Hb : V2.eval_ltb (snd hr) (snd hp) = false).
    { apply (StronglySorted_nth (before lt) S0 k (S k) hp hr Hsorted); auto. }
    split; [exact Hb|]. split.
    + intros E. rewrite Hk. apply eval_eqb_eq in E. now rewrite E.
    + intros N. split.
      * destruct (V2.eval_ltb (snd hp) (snd hr)) eqn:E; [reflexivity|].
        exfalso. apply N. now apply eval_ltb_total.
      * rewrite Hk. destruct (V2.eval_eqb (snd hr) (snd hp)) eqn:E; [|lia].
        apply eval_eqb_eq in E. contradiction.
Qed.

Lemma rank_all_competition_ranks_witness :
  Forall (fun hand => List.length hand = 5%nat) [wheel; six_high; wheel] /\
  exists rows,
    V2.rank_all [wheel; six_high; wheel] = Ok rows /\
    Permutation (map V2.Hand rows) [wheel; six_high; wheel] /\
    (forall r, nth_error rows 0 = Some r -> V2.Rank r = 1) /\
    (forall k p r,
        nth_error rows k = Some p -> nth_error rows (S k) = Some r ->
        exists ep er,
          V2.evaluate_hand (V2.Hand p) = Ok ep /\
          V2.evaluate_hand (V2.Hand r) = Ok er /\
          V2.eval_ltb er ep = false /\
          (er = ep -> V2.Rank r = V2.Rank p) /\
          (er <> ep ->
           V2.eval_ltb ep er = true /\ V2.Rank r = Z.of_nat (S k) + 1)).
Proof.
  split; [repeat constructor|].
  apply (rank_all_competition_ranks [wheel; six_high; wheel]).
  repeat constructor.
Defined.

(** C5: the evaluations of five-card hands are totally ordered by Python's
    comparison of the pairs [(category, tiebreak)]: of "before", "equal" and
    "after" exactly one holds, the order is antisymmetric and transitive, and
    two hands with the same evaluation are equal in it; the suits count
    only through [is_flush]. *)
Theorem evaluation_order_total (h1 h2 h3 : list card) :
  List.length h1 = 5%nat -> List.length h2 = 5%nat -> List.length h3 = 5%nat ->
  exists e1 e2 e3,
    V2.evaluate_hand h1 = Ok e1 /\
    V2.evaluate_hand h2 = Ok e2 /\
    V2.evaluate_hand h3 = Ok e3 /\
    ((V2.eval_ltb e1 e2 = true /\ V2.eval_eqb e1 e2 = false /\
      V2.eval_ltb e2 e1 = false) \/
     (V2.eval_ltb e1 e2 = false /\ V2.eval_eqb e1 e2 = true /\
      V2.eval_ltb e2 e1 = false) \/
     (V2.eval_ltb e1 e2 = false /\ V2.eval_eqb e1 e2 = false /\
      V2.eval_ltb e2 e1 = true)) /\
    (V2.eval_eqb e1 e2 = true <-> e1 = e2) /\
    (V2.eval_ltb e2 e1 = false -> V2.eval_ltb e1 e2 = false -> e1 = e2) /\
    (V2.eval_ltb e1 e2 = true -> V2.eval_ltb e2 e3 = true ->
     V2.eval_ltb e1 e3 = true) /\
    (Permutation (map fst h1) (map fst h2) ->
     V2.is_flush (map snd h1) = V2.is_flush (map snd h2) -> e1 = e2).
Proof.
  intros L1 L2 L3.
  destruct (V2_evaluate5 h1 L1) as (i1 & t1 & _ & E1 & _).
  destruct (V2_evaluate5 h2 L2) as (i2 & t2 & _ & E2 & _).
  destruct (V2_evaluate5 h3 L3) as (i3 & t3 & _ & E3 & _).
  exists (i1, t1), (i2, t2), (i3, t3).
  repeat (split; [assumption|]).
  split; [|split; [apply eval_eqb_eq|split; [|split]]].
  - destruct (V2.eval_ltb (i1, t1) (i2, t2)) eqn:A.
    + left. repeat split; [|now apply eval_ltb_asym].
      destruct (V2.eval_eqb (i1, t1) (i2, t2)) eqn:B; [|reflexivity].
      apply eval_eqb_eq in B. rewrite B, eval_ltb_irrefl in A. discriminate.
    + destruct (V2.eval_ltb (i2, t2) (i1, t1)) eqn:C.
      * right; right. repeat split.
        destruct (V2.eval_eqb (i1, t1) (i2, t2)) eqn:B; [|reflexivity].
        apply eval_eqb_eq in B. rewrite B, eval_ltb_irrefl in C. discriminate.
      * right; left. repeat split. apply eval_eqb_eq.
        now apply eval_ltb_total.
  - intros A B. now apply eval_ltb_total.
  - apply eval_ltb_trans.
  - intros HP HF. rewrite (V2_evaluate_hand_perm h1 h2 HP HF), E2 in E1.
    now inversion E1.
Qed.

Lemma evaluation_order_total_witness :
  exists e1 e2 e3,
    V2.evaluate_hand wheel = Ok e1 /\
    V2.evaluate_hand six_high = Ok e2 /\
    V2.evaluate_hand broadway_mixed = Ok e3 /\
    ((V2.eval_ltb e1 e2 = true /\ V2.eval_eqb e1 e2 = false /\
      V2.eval_ltb e2 e1 = false) \/
     (V2.eval_ltb e1 e2 = false /\ V2.eval_eqb e1 e2 = true /\
      V2.eval_ltb e2 e1 = false) \/
     (V2.eval_ltb e1 e2 = false /\ V2.eval_eqb e1 e2 = false /\
      V2.eval_ltb e2 e1 = true)) /\
    (V2.eval_eqb e1 e2 = true <-> e1 = e2) /\
    (V2.eval_ltb e2 e1 = false -> V2.eval_ltb e1 e2 = false -> e1 = e2) /\
    (V2.eval_ltb e1 e2 = true -> V2.eval_ltb e2 e3 = true ->
     V2.eval_ltb e1 e3 = true) /\
    (Permutation (map fst wheel) (map fst six_high) ->
     V2.is_flush (map snd wheel) = V2.is_flush (map snd six_high) -> e1 = e2).
Proof.
  apply (evaluation_order_total wheel six_high broadway_mixed); reflexivity.
Defined.

(** C6, as stated, fails: ten to ace in mixed suits is a straight, for both
    evaluators, not a high card. *)
Lemma broadway_mixed_not_high_card :
  V2.evaluate_hand broadway_mixed = Ok (5, [-14]) /\
  V01.evaluate_hand broadway_mixed = Ok ("ST", 5, broadway_mixed) /\
  ~ (exists tb, V2.evaluate_hand broadway_mixed = Ok (9, tb)) /\
  ~ (exists bc, V01.evaluate_hand broadway_mixed = Ok ("HC", 1, bc)).
Proof.
  assert (E2 : V2.evaluate_hand broadway_mixed = Ok (5, [-14])) by reflexivity.
  assert (E1 : V01.evaluate_hand broadway_mixed = Ok ("ST", 5, broadway_mixed))
    by reflexivity.
  repeat split; try assumption.
  - intros [tb H]. rewrite E2 in H. discriminate.
  - intros [bc H]. rewrite E1 in H. discriminate.
Qed.

(** C6, amended: a hand with the ranks ten to ace is a royal flush when its
    suits are all equal, and a straight (ace high) when they are not. *)
Theorem broadway_royal_flush_or_straight (hand : list card) :
  Permutation (map fst hand) [10; 11; 12; 13; 14] ->
  (V2.is_flush (map snd hand) = true ->
   V2.evaluate_hand hand = Ok (0, []) /\
   V01.evaluate_hand hand = Ok ("RF", 10, hand)) /\
  (V2.is_flush (map snd hand) = false ->
   V2.evaluate_hand hand = Ok (5, [-14]) /\
   V01.evaluate_hand hand = Ok ("ST", 5, hand)).
Proof.
  intros HP.
  assert (Hs : sorted_desc (map fst hand) = [14; 13; 12; 11; 10])
    by (rewrite (sorted_desc_perm _ _ HP); reflexivity).
  split; intros Hf; split.
  - rewrite (V2_evaluate_hand_perm hand broadway_suited HP Hf). reflexivity.
  - unfold V01.evaluate_hand. rewrite Hs, V01_is_flush, Hf. reflexivity.
  - rewrite (V2_evaluate_hand_perm hand broadway_mixed HP Hf). reflexivity.
  - unfold V01.evaluate_hand. rewrite Hs, V01_is_flush, Hf. reflexivity.
Qed.

Lemma broadway_royal_flush_or_straight_witness :
  Permutation (map fst broadway_suited) [10; 11; 12; 13; 14] /\
  V2.is_flush (map snd broadway_suited) = true /\
  V2.evaluate_hand broadway_suited = Ok (0, []) /\
  V01.evaluate_hand broadway_suited = Ok ("RF", 10, broadway_suited).
Proof.
  split; [apply Permutation_refl|]. split; [reflexivity|].
  apply (broadway_royal_flush_or_straight broadway_suited);
    [apply Permutation_refl | reflexivity].
Defined.

(** C7: [texas_holdem_score] raises exactly when its input does not hold
    seven cards, the error being the [ValueError] of its length check; on
    seven cards it returns. *)
Theorem texas_holdem_score_raises_iff (cards : list card) :
  ((exists e, V01.texas_holdem_score cards = Raise e) <->
   List.length cards <> 7%nat) /\
  (List.length cards <> 7%nat ->
   V01.texas_holdem_score cards =
   Raise (ValueError "Exactly seven cards are required")) /\
  (List.length cards = 7%nat ->
   exists r, V01.texas_holdem_score cards = Ok r).
Proof.
  assert (H7 : List.length cards = 7%nat ->
               exists r, V01.texas_holdem_score cards = Ok r).
  { intros Hl.
    destruct (texas_holdem_score_seven cards Hl) as (_ & label & rank & bc & E & _).
    eauto. }
  split; [|split; [apply texas_holdem_score_not_seven | exact H7]].
  split.
  - intros [e He] Hl. destruct (H7 Hl) as [r Hr]. congruence.
  - intros Hl. eexists. now apply texas_holdem_score_not_seven.
Qed.

Lemma texas_holdem_score_raises_iff_witness :
  (exists r, V01.texas_holdem_score quad_aces = Ok r) /\
  V01.texas_holdem_score four_cards =
  Raise (ValueError "Exactly seven cards are required").
Proof.
  split.
  - apply (texas_holdem_score_raises_iff quad_aces). reflexivity.
  - apply (texas_holdem_score_raises_iff four_cards). discriminate.
Defined.

(** C8: from the four aces, two kings and a deuce, in any order,
    [texas_holdem_score] returns four of a kind, and the cards it returns
    have the tie-break [(-14, -13)] in pokercombos.py: ace, then king, not
    the deuce. *)
Theorem quad_aces_king_kicker (seven_cards : list card) :
  Permutation quad_aces seven_cards ->
  exists bc,
    V01.texas_holdem_score seven_cards = Ok (Some "4k", 8, bc) /\
    V2.evaluate_hand bc = Ok (2, [-14; -13]).
Proof.
  intros HP. apply is_four_of_a_kind_spec.
  pose proof quad_aces_all_arrangements as H.
  rewrite forallb_forall in H. apply H.
  now apply arrangements_complete.
Qed.

Lemma quad_aces_king_kicker_witness :
  Permutation quad_aces quad_aces /\
  exists bc,
    V01.texas_holdem_score quad_aces = Ok (Some "4k", 8, bc) /\
    V2.evaluate_hand bc = Ok (2, [-14; -13]).
Proof.
  split; [apply Permutation_refl|].
  apply (quad_aces_king_kicker quad_aces). apply Permutation_refl.
Defined.

(** C9: on every five-card hand the two evaluators agree on the category:
    pokercombos.py returns the index [idx] and poker.py the label and
    [hand_rank] that [categories] lists for [idx]. *)
Theorem evaluate_hand_same_category (hand : list card) :
  List.length hand = 5%nat ->
  exists idx tb label rank bc,
    V2.evaluate_hand hand = Ok (idx, tb) /\
    V01.evaluate_hand hand = Ok (label, rank, bc) /\
    In (idx, label, rank) categories /\
    rank = 10 - idx /\ 0 <= idx <= 9.
Proof.
  intros Hl.
  destruct (classify5 hand Hl) as (idx & tb & label & rank & bc & E2 & E1 & Hc).
  exists idx, tb, label, rank, bc.
  destruct (categories_inv _ _ _ Hc) as (Hi & Hr & _). auto.
Qed.

Lemma evaluate_hand_same_category_witness :
  List.length wheel = 5%nat /\
  exists idx tb label rank bc,
    V2.evaluate_hand wheel = Ok (idx, tb) /\
    V01.evaluate_hand wheel = Ok (label, rank, bc) /\
    In (idx, label, rank) categories /\
    rank = 10 - idx /\ 0 <= idx <= 9.
Proof.
  split; [reflexivity|]. apply (evaluate_hand_same_category wheel). reflexivity.
Defined.

(** C10: for every sequence of exactly seven cards [texas_holdem_score]
    returns, and never its sentinel: [hand_type] is one of the ten labels
    (not [None]), [hand_rank] is between 1 and 10, and [best_cards] is what
    [evaluate_hand] returned for one of the five-card combinations of the
    input. *)
Theorem texas_holdem_score_never_sentinel (seven_cards : list card) :
  List.length seven_cards = 7%nat ->
  exists label rank bc combo,
    V01.texas_holdem_score seven_cards = Ok (Some label, rank, bc) /\
    In label ["RF"; "SF"; "4k"; "FH"; "FL"; "ST"; "3K"; "2P"; "PR"; "HC"] /\
    1 <= rank <= 10 /\
    In combo (combinations seven_cards 5) /\
    List.length combo = 5%nat /\ incl combo seven_cards /\
    V01.evaluate_hand combo = Ok (label, rank, bc).
Proof.
  intros Hl.
  destruct (texas_holdem_score_seven seven_cards Hl)
    as (combo & label & rank & bc & E & Hin & Hev).
  pose proof (combinations_length _ _ _ Hin) as Hc.
  destruct (V01_evaluate5 combo Hc) as (label' & rank' & bc' & Hev' & Hlab & Hr).
  rewrite Hev in Hev'. inversion Hev'; subst.
  exists label', rank', bc', combo.
  repeat split; try assumption; try lia.
  eapply combinations_incl, Hin.
Qed.

Lemma texas_holdem_score_never_sentinel_witness :
  List.length wheel_and_six = 7%nat /\
  exists label rank bc combo,
    V01.texas_holdem_score wheel_and_six = Ok (Some label, rank, bc) /\
    In label ["RF"; "SF"; "4k"; "FH"; "FL"; "ST"; "3K"; "2P"; "PR"; "HC"] /\
    1 <= rank <= 10 /\
    In combo (combinations wheel_and_six 5) /\
    List.length combo = 5%nat /\ incl combo wheel_and_six /\
    V01.evaluate_hand combo = Ok (label, rank, bc).
Proof.
  split; [reflexivity|].
  apply (texas_holdem_score_never_sentinel wheel_and_six). reflexivity.
Defined.

(** * Properties of the class [Deck] *)

(** ** Dealing *)

(** * The deck *)

(** ** [pop] *)
Lemma pop_app_last {A : Type} (l : list A) (x : A) : pop (l ++ [x]) = Some (x, l).
Proof.
  induction l as [|y l IH]; simpl; [reflexivity|]. now rewrite IH.
Qed.

Lemma pop_nil_iff {A : Type} (l : list A) : pop l = None <-> l = [].
Proof.
  destruct l as [|x l]; simpl; [tauto|].
  destruct (pop l) as [[y t]|]; split; discriminate.
Qed.

Lemma pop_Some {A : Type} (l l' : list A) (x : A) :
  pop l = Some (x, l') <-> l = l' ++ [x].
Proof.
  split; [|intros ->; apply pop_app_last].
  revert l' x. induction l as [|y l IH]; intros l' x; simpl; [discriminate|].
  destruct (pop l) as [[z t]|] eqn:E.
  - intros H. inversion H; subst. simpl. f_equal. now apply IH.
  - apply pop_nil_iff in E. subst. intros H. now inversion H.
Qed.

(** ** One card *)
Lemma deal_card_empty (self : Deck.t) :
  Deck.cards self = [] ->
  Deck.deal_card self =
  (Raise (ValueError "Cannot deal from an empty deck!"), self).
Proof. intros E. unfold Deck.deal_card. now rewrite E. Qed.

Lemma deal_card_top (self : Deck.t) (rest : list card) (card : card) :
  Deck.cards self = rest ++ [card] ->
  Deck.deal_card self =
  (Ok card,
   Deck.mk (Deck.ranks self) (Deck.suits self) rest
           (Deck.dealt_cards self ++ [card])).
Proof. intros E. unfold Deck.deal_card. now rewrite E, pop_app_last. Qed.

Lemma burn_card_top (self : Deck.t) (rest : list card) (card : card) :
  Deck.cards self = rest ++ [card] ->
  Deck.burn_card self =
  (Ok (Some card),
   Deck.mk (Deck.ranks self) (Deck.suits self) rest
           (Deck.dealt_cards self ++ [card])).
Proof. intros E. unfold Deck.burn_card. now rewrite E, pop_app_last. Qed.

(** ** Several cards *)

(** The hand is dealt from the end of [cards]. *)
Lemma deal_cards_ok (hand : list card) :
  forall (self : Deck.t) (rest : list card),
    Deck.cards self = rest ++ rev hand ->
    Deck.deal_cards (List.length hand) self =
    (Ok hand,
     Deck.mk (Deck.ranks self) (Deck.suits self) rest
             (Deck.dealt_cards self ++ hand)).
Proof.
  induction hand as [|c hand IH]; intros self rest E; simpl in *.
  - rewrite app_nil_r in *. destruct self; simpl in *. now subst.
  - rewrite app_assoc in E. unfold Deck.mbind at 1.
    rewrite (deal_card_top self _ c E).
    unfold Deck.mbind at 1. rewrite (IH _ rest) by reflexivity. simpl.
    unfold Deck.ret. now rewrite <- app_assoc.
Qed.

(** Asked for more cards than it has, the deck is emptied before the
    error. *)
Lemma deal_cards_short (n : nat) :
  forall self : Deck.t,
    (List.length (Deck.cards self) < n)%nat ->
    Deck.deal_cards n self =
    (Raise (ValueError "Cannot deal from an empty deck!"),
     Deck.mk (Deck.ranks self) (Deck.suits self) []
             (Deck.dealt_cards self ++ rev (Deck.cards self))).
Proof.
  induction n as [|n IH]; intros self Hn; [lia|]. simpl.
  unfold Deck.mbind at 1.
  destruct (pop (Deck.cards self)) as [[c rest]|] eqn:E.
  - apply pop_Some in E. rewrite (deal_card_top self rest c E).
    unfold Deck.mbind at 1. rewrite IH.
    + simpl. rewrite E, rev_app_distr, <- app_assoc. reflexivity.
    + simpl. rewrite E, length_app in Hn. simpl in Hn. lia.
  - apply pop_nil_iff in E. rewrite (deal_card_empty self E), E. simpl.
    rewrite app_nil_r. destruct self; simpl in *. now subst.
Qed.

(** The top [n] cards, in the order in which they are dealt. *)
Lemma split_top {A : Type} (l : list A) (n : nat) :
  (n <= List.length l)%nat ->
  exists rest hand, l = rest ++ rev hand /\ List.length hand = n.
Proof.
  intros Hn.
  exists (firstn (List.length l - n) l), (rev (skipn (List.length l - n) l)).
  rewrite rev_involutive, firstn_skipn, length_rev, length_skipn.
  split; [reflexivity | lia].
Qed.

(** ** Every method conserves the cards *)
Lemma conserves_ret {A : Type} (a : A) : Deck.conserves (Deck.ret a).
Proof. intros self. simpl. auto. Qed.

Lemma conserves_mbind {A B : Type} (m : Deck.method A) (k : A -> Deck.method B) :
  Deck.conserves m -> (forall a, Deck.conserves (k a)) ->
  Deck.conserves (Deck.mbind m k).
Proof.
  intros Hm Hk self. unfold Deck.mbind.
  destruct (Hm self) as (H1 & H2 & H3).
  destruct (m self) as [[a|e] self1]; simpl in *; [|auto].
  destruct (Hk a self1) as (K1 & K2 & K3).
  repeat split; congruence.
Qed.

Lemma conserves_deal_card : Deck.conserves Deck.deal_card.
Proof.
  intros self. unfold Deck.deal_card.
  destruct (pop (Deck.cards self)) as [[c rest]|] eqn:E; simpl; [|auto].
  apply pop_Some in E. unfold Deck.all_cards. simpl.
  rewrite E, rev_app_distr, <- app_assoc. auto.
Qed.

Lemma conserves_burn_card : Deck.conserves Deck.burn_card.
Proof.
  intros self. unfold Deck.burn_card.
  destruct (pop (Deck.cards self)) as [[c rest]|] eqn:E; simpl; [|auto].
  apply pop_Some in E. unfold Deck.all_cards. simpl.
  rewrite E, rev_app_distr, <- app_assoc. auto.
Qed.

Lemma conserves_deal_cards (n : nat) : Deck.conserves (Deck.deal_cards n).
Proof.
  induction n as [|n IH]; simpl; [apply conserves_ret|].
  apply conserves_mbind; [apply conserves_deal_card|]. intros c.
  apply conserves_mbind; [exact IH|]. intros rest. apply conserves_ret.
Qed.

(** X1: whatever a dealing method does, and whether it returns or raises,
    no card is lost, added or repeated: the cards left followed by the cards
    dealt, last dealt first, are the same list before and after. *)
Theorem deck_methods_conserve_cards (n : Z) (self : Deck.t) :
  Deck.all_cards (snd (Deck.deal_card self)) = Deck.all_cards self /\
  Deck.all_cards (snd (Deck.burn_card self)) = Deck.all_cards self /\
  Deck.all_cards (snd (Deck.deal_hand n self)) = Deck.all_cards self /\
  Deck.all_cards (snd (Deck.deal_flop self)) = Deck.all_cards self /\
  Deck.all_cards (snd (Deck.deal_turn self)) = Deck.all_cards self /\
  Deck.all_cards (snd (Deck.deal_river self)) = Deck.all_cards self /\
  Deck.all_cards (snd (Deck.deal_turn_river self)) = Deck.all_cards self.
Proof.
  assert (Hturn : Deck.conserves Deck.deal_turn).
  { apply conserves_mbind; [apply conserves_burn_card|].
    intros _. apply conserves_deal_card. }
  repeat split.
  - apply conserves_deal_card.
  - apply conserves_burn_card.
  - apply conserves_deal_cards.
  - apply (conserves_mbind Deck.burn_card);
      [apply conserves_burn_card | intros _; apply conserves_deal_cards].
  - apply Hturn.
  - apply Hturn.
  - apply Hturn.
Qed.

(** X2: [deal_hand(n)] on a deck that holds at least [n] cards returns [n]
    cards, the last card of [cards] first, removes them from [cards] and
    appends them to [dealt_cards] in the order dealt.  (For [n <= 0] it
    returns the empty list.) *)
Theorem deal_hand_enough_cards (n : Z) (self : Deck.t) :
  n <= Deck.cards_remaining self ->
  exists hand self',
    Deck.deal_hand n self = (Ok hand, self') /\
    len hand = Z.max n 0 /\
    Deck.cards self = Deck.cards self' ++ rev hand /\
    Deck.dealt_cards self' = Deck.dealt_cards self ++ hand /\
    Deck.cards_remaining self' = Deck.cards_remaining self - Z.max n 0.
Proof.
  unfold Deck.cards_remaining, len. intros Hn.
  destruct (split_top (Deck.cards self) (Z.to_nat n)) as (rest & hand & E & Hl);
    [lia|].
  exists hand. eexists. unfold Deck.deal_hand. rewrite <- Hl.
  split; [apply (deal_cards_ok hand self rest E)|]. simpl.
  rewrite E, length_app, length_rev. repeat split; lia.
Qed.

Lemma deal_hand_enough_cards_witness :
  2 <= Deck.cards_remaining Deck.init /\
  exists hand self',
    Deck.deal_hand 2 Deck.init = (Ok hand, self') /\
    len hand = Z.max 2 0 /\
    Deck.cards Deck.init = Deck.cards self' ++ rev hand /\
    Deck.dealt_cards self' = Deck.dealt_cards Deck.init ++ hand /\
    Deck.cards_remaining self' = Deck.cards_remaining Deck.init - Z.max 2 0.
Proof.
  assert (H : 2 <= Deck.cards_remaining Deck.init) by (vm_compute; discriminate).
  split; [exact H|]. apply (deal_hand_enough_cards 2 Deck.init H).
Defined.

(** X3: [deal_hand(n)] on a deck that holds fewer than [n] cards raises the
    [ValueError] of [deal_card], but only after it has dealt every card:
    the deck is left empty and all its cards are in [dealt_cards]. *)
Theorem deal_hand_too_few_cards (n : Z) (self : Deck.t) :
  Deck.cards_remaining self < n ->
  Deck.deal_hand n self =
  (Raise (ValueError "Cannot deal from an empty deck!"),
   Deck.mk (Deck.ranks self) (Deck.suits self) []
           (Deck.dealt_cards self ++ rev (Deck.cards self))).
Proof.
  unfold Deck.cards_remaining, len. intros Hn.
  apply deal_cards_short. lia.
Qed.

Lemma deal_hand_too_few_cards_witness :
  Deck.cards_remaining Deck.init < 53 /\
  Deck.deal_hand 53 Deck.init =
  (Raise (ValueError "Cannot deal from an empty deck!"),
   Deck.mk (Deck.ranks Deck.init) (Deck.suits Deck.init) []
           (Deck.dealt_cards Deck.init ++ rev (Deck.cards Deck.init))).
Proof.
  assert (H : Deck.cards_remaining Deck.init < 53) by (vm_compute; reflexivity).
  split; [exact H|]. apply (deal_hand_too_few_cards 53 Deck.init H).
Defined.

(** ** The flop, the turn and the river *)

Lemma deal_flop_ok (self : Deck.t) (rest : list card) (b c1 c2 c3 : card) :
  Deck.cards self = rest ++ [c3; c2; c1; b] ->
  Deck.deal_flop self =
  (Ok [c1; c2; c3],
   Deck.mk (Deck.ranks self) (Deck.suits self) rest
           (Deck.dealt_cards self ++ [b; c1; c2; c3])).
Proof.
  intros E. unfold Deck.deal_flop, Deck.mbind.
  rewrite (burn_card_top self (rest ++ [c3; c2; c1]) b)
    by (rewrite E, <- app_assoc; reflexivity).
  rewrite (deal_cards_ok [c1; c2; c3] _ rest) by reflexivity.
  simpl. now rewrite <- app_assoc.
Qed.

Lemma deal_turn_ok (self : Deck.t) (rest : list card) (b c : card) :
  Deck.cards self = rest ++ [c; b] ->
  Deck.deal_turn self =
  (Ok c,
   Deck.mk (Deck.ranks self) (Deck.suits self) rest
           (Deck.dealt_cards self ++ [b; c])).
Proof.
  intros E. unfold Deck.deal_turn, Deck.mbind.
  rewrite (burn_card_top self (rest ++ [c]) b)
    by (rewrite E, <- app_assoc; reflexivity).
  rewrite (deal_card_top _ rest c) by reflexivity.
  simpl. now rewrite <- app_assoc.
Qed.

Lemma burn_then_short (n : nat) (self : Deck.t) :
  (List.length (Deck.cards self) <= S n)%nat ->
  fst (Deck.mbind Deck.burn_card (fun _ => Deck.deal_cards (S n)) self) =
  Raise (ValueError "Cannot deal from an empty deck!").
Proof.
  intros Hn. unfold Deck.mbind, Deck.burn_card.
  destruct (pop (Deck.cards self)) as [[b rest]|] eqn:E.
  - apply pop_Some in E. rewrite deal_cards_short; [reflexivity|].
    simpl. rewrite E, length_app in Hn. simpl in Hn. lia.
  - apply pop_nil_iff in E. rewrite deal_cards_short; [reflexivity|].
    rewrite E. simpl. lia.
Qed.

(** X4: [deal_flop] needs four cards, one for the burn: with four or more
    it burns the last card of [cards] and returns the three before it, top
    first; with fewer it raises the [ValueError] of [deal_card]. *)
Theorem deal_flop_needs_four_cards (self : Deck.t) :
  (4 <= Deck.cards_remaining self ->
   exists rest b c1 c2 c3,
     Deck.cards self = rest ++ [c3; c2; c1; b] /\
     Deck.deal_flop self =
     (Ok [c1; c2; c3],
      Deck.mk (Deck.ranks self) (Deck.suits self) rest
              (Deck.dealt_cards self ++ [b; c1; c2; c3]))) /\
  (Deck.cards_remaining self < 4 ->
   fst (Deck.deal_flop self) =
   Raise (ValueError "Cannot deal from an empty deck!")).
Proof.
  unfold Deck.cards_remaining, len. split; intros Hn.
  - destruct (split_top (Deck.cards self) 4) as (rest & hand & E & Hl); [lia|].
    destruct hand as [|b [|c1 [|c2 [|c3 [|? ?]]]]]; try discriminate.
    exists rest, b, c1, c2, c3. split; [exact E|].
    now apply deal_flop_ok.
  - apply (burn_then_short 2). lia.
Qed.

(** X5: [deal_turn], [deal_river] and the [deal_turn_river] of
    pokercombos.py do the same and need two cards: with two or more they
    burn the last card of [cards] and return the one before it; with fewer
    they raise, and a single remaining card is burned first. *)
Theorem deal_turn_needs_two_cards (self : Deck.t) :
  Deck.deal_river self = Deck.deal_turn self /\
  Deck.deal_turn_river self = Deck.deal_turn self /\
  (2 <= Deck.cards_remaining self ->
   exists rest b c,
     Deck.cards self = rest ++ [c; b] /\
     Deck.deal_turn self =
     (Ok c,
      Deck.mk (Deck.ranks self) (Deck.suits self) rest
              (Deck.dealt_cards self ++ [b; c]))) /\
  (Deck.cards_remaining self < 2 ->
   Deck.deal_turn self =
   (Raise (ValueError "Cannot deal from an empty deck!"),
    Deck.mk (Deck.ranks self) (Deck.suits self) []
            (Deck.dealt_cards self ++ Deck.cards self))).
Proof.
  unfold Deck.cards_remaining, len. split; [reflexivity|].
  split; [reflexivity|]. split; intros Hn.
  - destruct (split_top (Deck.cards self) 2) as (rest & hand & E & Hl); [lia|].
    destruct hand as [|b [|c [|? ?]]]; try discriminate.
    exists rest, b, c. split; [exact E|]. now apply deal_turn_ok.
  - unfold Deck.deal_turn, Deck.mbind, Deck.burn_card.
    destruct (Deck.cards self) as [|x [|y l]] eqn:E; simpl in *; try lia.
    + rewrite (deal_card_empty self E). rewrite app_nil_r.
      destruct self; simpl in *. now subst.
    + reflexivity.
Qed.

(** ** [peek_top] *)

Lemma slice_from_neg {A : Type} (rest top : list A) :
  top <> [] ->
  slice_from (- len top) (rest ++ top) = top.
Proof.
  intros Hne. unfold slice_from, len. rewrite length_app.
  assert (0 < List.length top)%nat by (destruct top; [contradiction | simpl; lia]).
  replace (- Z.of_nat (List.length top) <? 0) with true
    by (symmetry; apply Z.ltb_lt; lia).
  replace (Z.to_nat _) with (List.length rest) by lia.
  now rewrite skipn_app, skipn_all, Nat.sub_diag.
Qed.

(** X6: for [1 <= n <= len(cards)], [peek_top(n)] is the last [n] cards of
    the deck, and [deal_hand(n)] then returns exactly these cards in the
    opposite order. *)
Theorem peek_top_then_deal_hand (n : Z) (self : Deck.t) :
  1 <= n <= Deck.cards_remaining self ->
  exists rest self',
    Deck.cards self = rest ++ Deck.peek_top n self /\
    len (Deck.peek_top n self) = n /\
    Deck.deal_hand n self = (Ok (rev (Deck.peek_top n self)), self').
Proof.
  unfold Deck.cards_remaining. intros Hn.
  destruct (split_top (Deck.cards self) (Z.to_nat n)) as (rest & hand & E & Hl);
    [unfold len in Hn; lia|].
  assert (Hp : Deck.peek_top n self = rev hand).
  { unfold Deck.peek_top.
    replace (len (Deck.cards self) <? n) with false
      by (symmetry; apply Z.ltb_ge; lia).
    rewrite E. replace n with (len (rev hand))
      by (unfold len; rewrite length_rev; lia).
    apply slice_from_neg. intros H. apply (f_equal (@List.length _)) in H.
    rewrite length_rev in H. simpl in H. lia. }
  exists rest. eexists. rewrite Hp, rev_involutive.
  split; [exact E|]. split; [unfold len; rewrite length_rev; lia|].
  unfold Deck.deal_hand. rewrite <- Hl. apply (deal_cards_ok hand self rest E).
Qed.

Lemma peek_top_then_deal_hand_witness :
  1 <= 3 <= Deck.cards_remaining Deck.init /\
  exists rest self',
    Deck.cards Deck.init = rest ++ Deck.peek_top 3 Deck.init /\
    len (Deck.peek_top 3 Deck.init) = 3 /\
    Deck.deal_hand 3 Deck.init = (Ok (rev (Deck.peek_top 3 Deck.init)), self').
Proof.
  assert (H : 1 <= 3 <= Deck.cards_remaining Deck.init)
    by (split; vm_compute; discriminate).
  split; [exact H|]. apply (peek_top_then_deal_hand 3 Deck.init H).
Defined.

(** X7: [peek_top(0)] does not return an empty list: [cards[-0:]] is the
    whole deck, as is the answer to a request for more cards than there
    are; a negative [num] drops the first [-num] cards. *)
Theorem peek_top_whole_deck (num : Z) (self : Deck.t) :
  (num = 0 \/ Deck.cards_remaining self < num ->
   Deck.peek_top num self = Deck.cards self) /\
  (num < 0 -> Deck.peek_top num self = skipn (Z.to_nat (- num)) (Deck.cards self)).
Proof.
  unfold Deck.cards_remaining, Deck.peek_top, slice_from.
  split.
  - intros [->|Hn].
    + replace (len (Deck.cards self) <? 0) with false
        by (symmetry; apply Z.ltb_ge; unfold len; lia).
      reflexivity.
    + replace (len (Deck.cards self) <? num) with true
        by (symmetry; apply Z.ltb_lt; lia).
      unfold len in *.
      destruct (Z.ltb_spec (- Z.of_nat (List.length (Deck.cards self))) 0).
      * replace (Z.to_nat _) with O by lia. reflexivity.
      * replace (Z.to_nat _) with O by lia. reflexivity.
  - intros Hn.
    replace (len (Deck.cards self) <? num) with false
      by (symmetry; apply Z.ltb_ge; unfold len; lia).
    replace (- num <? 0) with false by (symmetry; apply Z.ltb_ge; lia).
    reflexivity.
Qed.

(** ** A new deck *)

Lemma pairs_In {A B : Type} (la : list A) (lb : list B) (a : A) (b : B) :
  In (a, b) (flat_map (fun x => map (fun y => (x, y)) lb) la) <->
  In a la /\ In b lb.
Proof.
  rewrite in_flat_map. split.
  - intros (x & Hx & H). apply in_map_iff in H. destruct H as (y & E & Hy).
    inversion E; subst. auto.
  - intros [Ha Hb]. exists a. split; [exact Ha|].
    apply in_map_iff. now exists b.
Qed.

Lemma pairs_length {A B : Type} (la : list A) (lb : list B) :
  List.length (flat_map (fun x => map (fun y => (x, y)) lb) la) =
  (List.length la * List.length lb)%nat.
Proof.
  induction la as [|a la IH]; simpl; [reflexivity|].
  now rewrite length_app, length_map, IH.
Qed.

Lemma pairs_NoDup {A B : Type} (la : list A) (lb : list B) :
  NoDup la -> NoDup lb ->
  NoDup (flat_map (fun x => map (fun y => (x, y)) lb) la).
Proof.
  intros Ha Hb. induction Ha as [|a la Hn Ha IH]; simpl; [constructor|].
  apply NoDup_app.
  - apply Injective_map_NoDup; [|exact Hb]. intros x y E. now inversion E.
  - exact IH.
  - intros [x y] H1 H2. apply in_map_iff in H1. destruct H1 as (z & E & _).
    inversion E; subst. apply pairs_In in H2. tauto.
Qed.

(** The cards of [Deck()] are all different. *)
Lemma init_cards_NoDup : NoDup (Deck.cards Deck.init).
Proof.
  apply pairs_NoDup.
  - apply Injective_map_NoDup; [intros x y; apply Nat2Z.inj | apply seq_NoDup].
  - repeat constructor; simpl; intuition discriminate.
Qed.

(** X8: [reset] empties [dealt_cards] and rebuilds [cards] with every pair
    of a rank and a suit, once each when the ranks and the suits have no
    repetition; [Deck()] holds the 52 cards of ranks 2 to 14, all
    different. *)
Theorem reset_builds_every_card (self : Deck.t) :
  Deck.dealt_cards (Deck.reset self) = [] /\
  (forall rank suit,
      In (rank, suit) (Deck.cards (Deck.reset self)) <->
      In rank (Deck.ranks self) /\ In suit (Deck.suits self)) /\
  Deck.cards_remaining (Deck.reset self) =
    len (Deck.ranks self) * len (Deck.suits self) /\
  (NoDup (Deck.ranks self) -> NoDup (Deck.suits self) ->
   NoDup (Deck.cards (Deck.reset self))) /\
  Deck.cards_remaining Deck.init = 52 /\
  NoDup (Deck.cards Deck.init) /\
  (forall rank suit, In (rank, suit) (Deck.cards Deck.init) <-> 2 <= rank <= 14).
Proof.
  split; [reflexivity|]. split; [intros; apply pairs_In|].
  split.
  { unfold Deck.cards_remaining, len, Deck.reset.
    cbn [Deck.cards Deck.ranks Deck.suits].
    rewrite <- Nat2Z.inj_mul. f_equal.
    exact (pairs_length (Deck.ranks self) (Deck.suits self)). }
  split; [apply pairs_NoDup|].
  split; [reflexivity|]. split; [exact init_cards_NoDup|].
  intros rank suit.
  assert (H := pairs_In (map Z.of_nat (seq 2 13))
                        [Clubs; Hearts; Spades; Diamonds] rank suit).
  change (In (rank, suit) (Deck.cards Deck.init) <->
          In rank (map Z.of_nat (seq 2 13)) /\
          In suit [Clubs; Hearts; Spades; Diamonds]) in H.
  rewrite H, in_map_iff. clear H. split.
  - intros [(n & <- & Hn) _]. apply in_seq in Hn. lia.
  - intros Hr. split.
    + exists (Z.to_nat rank). split; [lia | apply in_seq; lia].
    + simpl. destruct suit; tauto.
Qed.

(** ** The dealing of [main] *)

Lemma deal_players_ok (players : nat) :
  forall self : Deck.t,
    (2 * players <= List.length (Deck.cards self))%nat ->
    exists hands rest,
      Deck.cards self = rest ++ rev (List.concat hands) /\
      List.length hands = players /\
      Forall (fun hand => List.length hand = 2%nat) hands /\
      Deck.deal_players players self =
      (Ok hands,
       Deck.mk (Deck.ranks self) (Deck.suits self) rest
               (Deck.dealt_cards self ++ List.concat hands)).
Proof.
  induction players as [|n IH]; intros self Hn.
  - exists [], (Deck.cards self). simpl. rewrite !app_nil_r.
    repeat split; [constructor|]. destruct self; reflexivity.
  - destruct (split_top (Deck.cards self) 2) as (rest1 & hand & E & Hl); [lia|].
    pose proof (deal_cards_ok hand self rest1 E) as Hd. rewrite Hl in Hd.
    set (self1 := Deck.mk (Deck.ranks self) (Deck.suits self) rest1
                          (Deck.dealt_cards self ++ hand)) in *.
    destruct (IH self1) as (hands & rest & E1 & Hlen & Hall & Hp).
    { simpl. rewrite E, length_app, length_rev in Hn. lia. }
    exists (hand :: hands), rest.
    subst self1. cbn [Deck.cards Deck.ranks Deck.suits Deck.dealt_cards] in *.
    split; [cbn [List.concat];
            rewrite E, E1, rev_app_distr, <- app_assoc; reflexivity|].
    split; [simpl; now f_equal|]. split; [now constructor|].
    cbn [Deck.deal_players]. unfold Deck.mbind at 1. unfold Deck.deal_hand.
    change (Z.to_nat 2) with 2%nat. rewrite Hd.
    unfold Deck.mbind at 1. rewrite Hp.
    cbn [List.concat]. unfold Deck.ret. now rewrite <- app_assoc.
Qed.

Lemma deal_table_ok (self : Deck.t) (rest : list card)
    (b1 f1 f2 f3 b2 t b3 r : card) :
  Deck.cards self = rest ++ [r; b3; t; b2; f3; f2; f1; b1] ->
  Deck.deal_table self =
  (Ok [f1; f2; f3; t; r],
   Deck.mk (Deck.ranks self) (Deck.suits self) rest
           (Deck.dealt_cards self ++ [b1; f1; f2; f3; b2; t; b3; r])).
Proof.
  intros E. unfold Deck.deal_table.
  unfold Deck.mbind at 1.
  rewrite (deal_flop_ok self (rest ++ [r; b3; t; b2]) b1 f1 f2 f3)
    by (rewrite E, <- app_assoc; reflexivity).
  unfold Deck.mbind at 1.
  rewrite (deal_turn_ok _ (rest ++ [r; b3]) b2 t)
    by (simpl; rewrite <- app_assoc; reflexivity).
  unfold Deck.mbind at 1. unfold Deck.deal_river.
  fold Deck.deal_turn.
  rewrite (deal_turn_ok _ rest b3 r) by reflexivity.
  simpl. unfold Deck.ret. now rewrite <- !app_assoc.
Qed.

Lemma card_eq_dec (x y : card) : {x = y} + {x <> y}.
Proof. decide equality; [decide equality | apply Z.eq_dec]. Defined.

Lemma NoDup_fewer (l l' : list card) :
  NoDup l ->
  (forall x, (count_occ card_eq_dec l' x <= count_occ card_eq_dec l x)%nat) ->
  NoDup l'.
Proof.
  intros Hl H. apply (NoDup_count_occ card_eq_dec). intros x.
  rewrite (NoDup_count_occ card_eq_dec) in Hl. specialize (Hl x).
  specialize (H x). lia.
Qed.

(** X9: the dealing of [main] cannot fail.  From a new deck, shuffled in any
    way, two cards for each of five players and then the flop, the turn and
    the river are dealt without error and leave 34 cards; the fifteen cards
    in play are all different, so each player's seven cards are distinct,
    and [texas_holdem_score] returns a hand type for each player. *)
Theorem main_deal_succeeds (self : Deck.t) :
  Deck.shuffle Deck.init self ->
  exists hands table self',
    Deck.main_deal self = (Ok (hands, table), self') /\
    List.length hands = 5%nat /\ List.length table = 5%nat /\
    Deck.cards_remaining self' = 34 /\
    NoDup (List.concat hands ++ table) /\
    Forall (fun hand =>
              List.length hand = 2%nat /\ NoDup (hand ++ table) /\
              exists label rank bc,
                V01.texas_holdem_score (hand ++ table) =
                Ok (Some label, rank, bc)) hands.
Proof.
  intros (HP & _ & _ & Hd).
  assert (Hnd : NoDup (Deck.cards self)).
  { eapply Permutation_NoDup; [exact HP | exact init_cards_NoDup]. }
  assert (Hlen : List.length (Deck.cards self) = 52%nat).
  { rewrite <- (Permutation_length HP). reflexivity. }
  destruct (deal_players_ok 5 self) as (hands & rest1 & E1 & Hh & Hall & Hp);
    [lia|].
  assert (Hc : List.length (List.concat hands) = 10%nat).
  { clear - Hh Hall.
    destruct hands as [|h1 [|h2 [|h3 [|h4 [|h5 [|? ?]]]]]]; try discriminate.
    repeat match goal with
           | H : Forall _ (_ :: _) |- _ => inversion H; subst; clear H
           end.
    simpl. rewrite !length_app. simpl. lia. }
  destruct (split_top rest1 8) as (rest & X & E2 & Hx).
  { rewrite E1, length_app, length_rev in Hlen. lia. }
  destruct X as [|b1 [|f1 [|f2 [|f3 [|b2 [|t [|b3 [|r [|? ?]]]]]]]]];
    try discriminate.
  simpl in E2.
  exists hands, [f1; f2; f3; t; r]. eexists.
  split.
  { unfold Deck.main_deal. unfold Deck.mbind at 1. rewrite Hp.
    unfold Deck.mbind at 1. rewrite (deal_table_ok _ rest b1 f1 f2 f3 b2 t b3 r)
      by exact E2.
    reflexivity. }
  split; [exact Hh|]. split; [reflexivity|].
  split.
  { unfold Deck.cards_remaining, len. simpl.
    rewrite E1, E2, !length_app, length_rev in Hlen. simpl in Hlen. lia. }
  rewrite E1, E2 in Hnd.
  split.
  { apply (NoDup_fewer _ _ Hnd). intros x.
    change [f1; f2; f3; t; r] with ([f1; f2; f3] ++ [t] ++ [r]).
    change [r; b3; t; b2; f3; f2; f1; b1]
      with ([r] ++ [b3] ++ [t] ++ [b2] ++ rev [f1; f2; f3] ++ [b1]).
    rewrite !count_occ_app, !count_occ_rev. lia. }
  apply Forall_forall. intros hand Hin.
  rewrite Forall_forall in Hall. split; [now apply Hall|].
  assert (Hnd' : NoDup (hand ++ [f1; f2; f3; t; r])).
  { apply (NoDup_fewer _ _ Hnd). intros x.
    destruct (in_split _ _ Hin) as (h1 & h2 & ->).
    rewrite concat_app. cbn [List.concat].
    change [f1; f2; f3; t; r] with ([f1; f2; f3] ++ [t] ++ [r]).
    change [r; b3; t; b2; f3; f2; f1; b1]
      with ([r] ++ [b3] ++ [t] ++ [b2] ++ rev [f1; f2; f3] ++ [b1]).
    rewrite !count_occ_app, !count_occ_rev, !count_occ_app. lia. }
  split; [exact Hnd'|].
  destruct (texas_holdem_score_seven (hand ++ [f1; f2; f3; t; r]))
    as (combo & label & rank & bc & E & _).
  { rewrite length_app, (Hall hand Hin). reflexivity. }
  now exists label, rank, bc.
Qed.

Lemma main_deal_succeeds_witness :
  Deck.shuffle Deck.init Deck.init /\
  exists hands table self',
    Deck.main_deal Deck.init = (Ok (hands, table), self') /\
    List.length hands = 5%nat /\ List.length table = 5%nat /\
    Deck.cards_remaining self' = 34 /\
    NoDup (List.concat hands ++ table) /\
    Forall (fun hand =>
              List.length hand = 2%nat /\ NoDup (hand ++ table) /\
              exists label rank bc,
                V01.texas_holdem_score (hand ++ table) =
                Ok (Some label, rank, bc)) hands.
Proof.
  assert (H : Deck.shuffle Deck.init Deck.init)
    by (repeat split; apply Permutation_refl).
  split; [exact H|]. apply (main_deal_succeeds Deck.init H).
Defined.

(** * Further properties of the evaluators *)

(** * More on the evaluators *)

(** ** The order of the cards *)

Lemma suit_eqb_eq (a b : suit) : suit_eqb a b = true <-> a = b.
Proof. destruct a, b; simpl; split; congruence. Qed.

Lemma is_flush_perm (l1 l2 : list suit) :
  Permutation l1 l2 -> V2.is_flush l1 = V2.is_flush l2.
Proof.
  intros HP. unfold V2.is_flush.
  now rewrite (len_set_perm suit_eqb suit_eqb_eq _ _ HP).
Qed.

(** X10: the evaluation of pokercombos.py does not depend on the order of
    the cards: two hands (of any size) with the same cards in another order
    have the same evaluation, or the same error, and the same name. *)
Theorem evaluate_hand_any_order (hand1 hand2 : list card) :
  Permutation hand1 hand2 ->
  V2.evaluate_hand hand1 = V2.evaluate_hand hand2 /\
  V2.get_hand_name hand1 = V2.get_hand_name hand2.
Proof.
  intros HP.
  assert (E : V2.evaluate_hand hand1 = V2.evaluate_hand hand2).
  { apply V2_evaluate_hand_perm.
    - now apply Permutation_map.
    - apply is_flush_perm. now apply Permutation_map. }
  split; [exact E|]. unfold V2.get_hand_name. now rewrite E.
Qed.

Lemma evaluate_hand_any_order_witness :
  Permutation wheel (rev wheel) /\
  V2.evaluate_hand wheel = V2.evaluate_hand (rev wheel) /\
  V2.get_hand_name wheel = V2.get_hand_name (rev wheel).
Proof.
  split; [apply Permutation_rev|].
  apply (evaluate_hand_any_order wheel (rev wheel)). apply Permutation_rev.
Defined.

(** ** [best_cards] *)

Lemma filter_all {A : Type} (f : A -> bool) (l : list A) :
  (forall x, In x l -> f x = true) -> filter f l = l.
Proof.
  induction l as [|x l IH]; intros H; simpl; [reflexivity|].
  rewrite (H x) by now left. f_equal. apply IH. intros y Hy. apply H. now right.
Qed.

(** A rank of the hand is tested against the ranks the branch has kept. *)
Ltac keeps_rank :=
  match goal with
  | H : _ = fst ?c |- _ => rewrite <- H
  end;
  norm; reflexivity.

Ltac whole_hand_case a b c d e :=
  components a b c d e;
  split_fixed_ranks;
  cbn [bind];
  try match goal with
      | |- context [(?x - ?y =? 4)] => is_var x; destruct (x - y =? 4)
      end;
  match goal with fl : bool |- _ => destruct fl end;
  norm;
  eexists _, _;
  first [ reflexivity
        | apply f_equal; apply f_equal2; [reflexivity|];
          apply filter_all;
          let c0 := fresh "c0" in
          let Hc0 := fresh "Hc0" in
          intros c0 Hc0;
          match goal with
          | Hin : forall x, In x _ -> In (fst x) _ |- _ =>
              specialize (Hin c0 Hc0); simpl in Hin;
              repeat (destruct Hin as [Hin|Hin]; [keeps_rank|]);
              contradiction
          end ].

Lemma V01_whole_hand_sorted a b c d e (cards : list card) :
  a >= b -> b >= c -> c >= d -> d >= e ->
  sorted_desc (map fst cards) = [a; b; c; d; e] ->
  exists label rank, V01.evaluate_hand cards = Ok (label, rank, cards).
Proof.
  intros Hab Hbc Hcd Hde Hs.
  assert (Hin : forall x, In x cards -> In (fst x) [a; b; c; d; e]).
  { intros x Hx. rewrite <- Hs.
    apply (Permutation_in _ (Permutation_sym (sorted_perm _ _))).
    now apply in_map. }
  unfold V01.evaluate_hand. rewrite Hs.
  set (fl := len (set suit_eqb _) =? 1). clearbody fl. clear Hs.
  assert (Eab : a = b \/ a > b) by lia.
  assert (Ebc : b = c \/ b > c) by lia.
  assert (Ecd : c = d \/ c > d) by lia.
  assert (Ede : d = e \/ d > e) by lia.
  clear Hab Hbc Hcd Hde.
  destruct Eab as [->|Eab], Ebc as [->|Ebc], Ecd as [->|Ecd], Ede as [->|Ede];
    match goal with
    | |- context [Counter [?a; ?b; ?c; ?d; ?e]] => whole_hand_case a b c d e
    end.
Qed.

Lemma V01_whole_hand (cards : list card) :
  List.length cards = 5%nat ->
  exists label rank, V01.evaluate_hand cards = Ok (label, rank, cards).
Proof.
  intros Hl.
  destruct (sorted_desc5 (map fst cards)) as (a & b & c & d & e & E & Hord).
  { now rewrite length_map. }
  apply (V01_whole_hand_sorted a b c d e); tauto.
Qed.

Lemma categories_of_index (idx : Z) (l1 l2 : string) (r1 r2 : Z) :
  In (idx, l1, r1) categories -> In (idx, l2, r2) categories ->
  l1 = l2 /\ r1 = r2.
Proof.
  intros H1 H2. cbn in H1, H2.
  repeat (destruct H1 as [H1|H1]; [inversion H1; subst; clear H1|]);
    try contradiction;
    repeat (destruct H2 as [H2|H2]; [inversion H2; subst; clear H2|]);
    try contradiction; split; reflexivity.
Qed.

(** X11: on five cards [evaluate_hand] of poker.py keeps every card: the
    [best_cards] it returns are the five cards it was given, in the order
    given; and the hand type and rank are the same for the same cards in
    any other order. *)
Theorem evaluate_hand_best_cards_whole_hand (cards : list card) :
  List.length cards = 5%nat ->
  exists label rank,
    V01.evaluate_hand cards = Ok (label, rank, cards) /\
    forall cards',
      Permutation cards cards' ->
      V01.evaluate_hand cards' = Ok (label, rank, cards').
Proof.
  intros Hl. destruct (V01_whole_hand cards Hl) as (label & rank & E).
  exists label, rank. split; [exact E|]. intros cards' HP.
  assert (Hl' : List.length cards' = 5%nat)
    by (rewrite <- (Permutation_length HP); exact Hl).
  destruct (V01_whole_hand cards' Hl') as (label' & rank' & E').
  destruct (classify5 cards Hl) as (i1 & t1 & l1 & r1 & b1 & F2 & F1 & C1).
  destruct (classify5 cards' Hl') as (i2 & t2 & l2 & r2 & b2 & G2 & G1 & C2).
  assert (H1 : l1 = label /\ r1 = rank)
    by (rewrite E in F1; now inversion F1).
  assert (H2 : l2 = label' /\ r2 = rank')
    by (rewrite E' in G1; now inversion G1).
  destruct H1 as [-> ->], H2 as [-> ->].
  rewrite (V2_evaluate_hand_perm cards cards') in F2.
  - rewrite G2 in F2. inversion F2; subst.
    destruct (categories_of_index _ _ _ _ _ C1 C2) as [-> ->]. exact E'.
  - now apply Permutation_map.
  - apply is_flush_perm. now apply Permutation_map.
Qed.

Lemma evaluate_hand_best_cards_whole_hand_witness :
  List.length broadway_mixed = 5%nat /\
  exists label rank,
    V01.evaluate_hand broadway_mixed = Ok (label, rank, broadway_mixed) /\
    forall cards',
      Permutation broadway_mixed cards' ->
      V01.evaluate_hand cards' = Ok (label, rank, cards').
Proof.
  split; [reflexivity|].
  apply (evaluate_hand_best_cards_whole_hand broadway_mixed). reflexivity.
Defined.

(** X12: on seven cards the [best_cards] that [texas_holdem_score] returns
    are one of the 21 five-card combinations of the input, unchanged, and
    [hand_type] and [hand_rank] are what [evaluate_hand] answers for it. *)
Theorem texas_holdem_score_returns_combination (seven_cards : list card) :
  List.length seven_cards = 7%nat ->
  exists label rank best_cards,
    V01.texas_holdem_score seven_cards = Ok (Some label, rank, best_cards) /\
    In best_cards (combinations seven_cards 5) /\
    List.length best_cards = 5%nat /\
    V01.evaluate_hand best_cards = Ok (label, rank, best_cards).
Proof.
  intros Hl.
  destruct (texas_holdem_score_seven seven_cards Hl)
    as (combo & label & rank & bc & E & Hin & Hev).
  pose proof (combinations_length _ _ _ Hin) as Hc.
  destruct (V01_whole_hand combo Hc) as (l' & r' & Hw).
  rewrite Hw in Hev. inversion Hev; subst.
  now exists label, rank, bc.
Qed.

Lemma texas_holdem_score_returns_combination_witness :
  List.length quad_aces = 7%nat /\
  exists label rank best_cards,
    V01.texas_holdem_score quad_aces = Ok (Some label, rank, best_cards) /\
    In best_cards (combinations quad_aces 5) /\
    List.length best_cards = 5%nat /\
    V01.evaluate_hand best_cards = Ok (label, rank, best_cards).
Proof.
  split; [reflexivity|].
  apply (texas_holdem_score_returns_combination quad_aces). reflexivity.
Defined.

(** X13: on seven cards [texas_holdem_score] returns a hand that no
    combination exceeds in the order it uses: [hand_rank] first, then the
    ranks of the cards in descending order, compared as lists (so that an
    ace always counts 14). *)
Theorem texas_holdem_score_greatest_key (seven_cards : list card) :
  List.length seven_cards = 7%nat ->
  exists label rank bc,
    V01.texas_holdem_score seven_cards = Ok (Some label, rank, bc) /\
    forall combo label' rank' bc',
      In combo (combinations seven_cards 5) ->
      V01.evaluate_hand combo = Ok (label', rank', bc') ->
      rank' < rank \/
      (rank' = rank /\
       seq_ltb (sorted_desc (map fst bc)) (sorted_desc (map fst bc')) = false).
Proof.
  intros Hl.
  destruct (texas_holdem_score_max_key seven_cards Hl)
    as (label & rank & bc & E & Hmax).
  exists label, rank, bc. split; [exact E|].
  intros combo label' rank' bc' Hin Hev.
  specialize (Hmax combo _ Hin Hev). unfold V2.eval_ltb, hand_key in Hmax.
  cbn [fst snd] in Hmax.
  destruct (Z.eqb_spec rank rank') as [->|N]; [right; auto|].
  left. apply Z.ltb_ge in Hmax. lia.
Qed.

Lemma texas_holdem_score_greatest_key_witness :
  List.length wheel_and_six = 7%nat /\
  exists label rank bc,
    V01.texas_holdem_score wheel_and_six = Ok (Some label, rank, bc) /\
    forall combo label' rank' bc',
      In combo (combinations wheel_and_six 5) ->
      V01.evaluate_hand combo = Ok (label', rank', bc') ->
      rank' < rank \/
      (rank' = rank /\
       seq_ltb (sorted_desc (map fst bc)) (sorted_desc (map fst bc')) = false).
Proof.
  split; [reflexivity|].
  apply (texas_holdem_score_greatest_key wheel_and_six). reflexivity.
Defined.

(** ** The order of the seven cards *)

Lemma combinations_0 {A : Type} (l : list A) : combinations l 0 = [[]].
Proof. destruct l; reflexivity. Qed.

Lemma in_combinations_cons {A : Type} (x : A) (l : list A) (k : nat)
    (c : list A) :
  In c (combinations (x :: l) (S k)) ->
  (exists c0, c = x :: c0 /\ In c0 (combinations l k)) \/
  In c (combinations l (S k)).
Proof.
  simpl. rewrite in_app_iff, in_map_iff.
  intros [(c0 & H1 & H2) | H]; [left; exists c0; auto | right; exact H].
Qed.

Lemma combinations_take {A : Type} (x : A) (l : list A) (k : nat)
    (c : list A) :
  In c (combinations l k) -> In (x :: c) (combinations (x :: l) (S k)).
Proof. intros H. simpl. apply in_or_app. left. now apply in_map. Qed.

Lemma combinations_skip {A : Type} (x : A) (l : list A) (k : nat)
    (c : list A) :
  In c (combinations l (S k)) -> In c (combinations (x :: l) (S k)).
Proof. intros H. simpl. apply in_or_app. now right. Qed.

(** The combinations of a rearranged list are those of the list, each
    rearranged. *)
Lemma combinations_perm_In {A : Type} (l l' : list A) :
  Permutation l l' ->
  forall k c, In c (combinations l k) ->
              exists c', In c' (combinations l' k) /\ Permutation c c'.
Proof.
  induction 1 as [|x l l' HP IH|x y l|l l' l'' _ IH1 _ IH2]; intros k c Hc.
  - exists c. auto.
  - destruct k as [|k]; [exists c; auto|].
    apply in_combinations_cons in Hc. destruct Hc as [(c0 & -> & Hc)|Hc].
    + destruct (IH _ _ Hc) as (c' & Hin & Hp). exists (x :: c').
      split; [now apply combinations_take | now constructor].
    + destruct (IH _ _ Hc) as (c' & Hin & Hp). exists c'.
      split; [now apply combinations_skip | exact Hp].
  - destruct k as [|k]; [exists c; auto|].
    apply in_combinations_cons in Hc. destruct Hc as [(c0 & -> & Hc)|Hc].
    + destruct k as [|k].
      * simpl in Hc. destruct Hc as [<- | []]. exists [y].
        split; [|reflexivity].
        apply combinations_skip, combinations_take.
        rewrite combinations_0. now left.
      * apply in_combinations_cons in Hc. destruct Hc as [(c1 & -> & Hc)|Hc].
        -- exists (x :: y :: c1). split; [|apply perm_swap].
           now apply combinations_take, combinations_take.
        -- exists (y :: c0). split; [|reflexivity].
           now apply combinations_skip, combinations_take.
    + apply in_combinations_cons in Hc. destruct Hc as [(c0 & -> & Hc)|Hc].
      * exists (x :: c0). split; [|reflexivity].
        apply combinations_take.
        destruct k as [|k]; [|now apply combinations_skip].
        rewrite combinations_0 in *. exact Hc.
      * exists c. split; [|reflexivity].
        now apply combinations_skip, combinations_skip.
  - destruct (IH1 _ _ Hc) as (c1 & Hin1 & Hp1).
    destruct (IH2 _ _ Hin1) as (c2 & Hin2 & Hp2).
    exists c2. split; [exact Hin2 | now transitivity c1].
Qed.

Lemma hand_key_perm (c c' : list card) (r r' : string * Z * list card) :
  List.length c = 5%nat -> Permutation c c' ->
  V01.evaluate_hand c = Ok r -> V01.evaluate_hand c' = Ok r' ->
  hand_key r = hand_key r' /\ fst (fst r) = fst (fst r').
Proof.
  intros Hl HP E E'.
  destruct (V01_whole_hand c Hl) as (label & rank & Ew).
  assert (Hl' : List.length c' = 5%nat)
    by (rewrite <- (Permutation_length HP); exact Hl).
  destruct (V01_whole_hand c' Hl') as (label' & rank' & Ew').
  destruct (classify5 c Hl) as (i1 & t1 & l1 & r1 & b1 & F2 & F1 & C1).
  destruct (classify5 c' Hl') as (i2 & t2 & l2 & r2 & b2 & G2 & G1 & C2).
  rewrite (V2_evaluate_hand_perm c c') in F2;
    [|now apply Permutation_map | apply is_flush_perm; now apply Permutation_map].
  rewrite G2 in F2. inversion F2; subst.
  destruct (categories_of_index _ _ _ _ _ C1 C2) as [-> ->].
  rewrite Ew in F1, E. rewrite Ew' in G1, E'.
  inversion F1; inversion G1; inversion E; inversion E'; subst.
  unfold hand_key. cbn [fst snd]. split; [|reflexivity].
  f_equal. apply sorted_desc_perm. now apply Permutation_map.
Qed.

(** X14: the order of the seven cards does not matter to the hand type, the
    hand rank and the ranks of the best cards that [texas_holdem_score]
    returns; the best cards themselves may be different cards of the same
    ranks. *)
Theorem texas_holdem_score_any_card_order (seven_cards seven_cards' : list card) :
  List.length seven_cards = 7%nat ->
  Permutation seven_cards seven_cards' ->
  exists label rank bc bc',
    V01.texas_holdem_score seven_cards = Ok (Some label, rank, bc) /\
    V01.texas_holdem_score seven_cards' = Ok (Some label, rank, bc') /\
    sorted_desc (map fst bc) = sorted_desc (map fst bc').
Proof.
  intros Hl HP.
  assert (Hl' : List.length seven_cards' = 7%nat)
    by (rewrite <- (Permutation_length HP); exact Hl).
  destruct (texas_holdem_score_max_key _ Hl) as (l1 & r1 & b1 & E1 & M1).
  destruct (texas_holdem_score_max_key _ Hl') as (l2 & r2 & b2 & E2 & M2).
  destruct (texas_holdem_score_seven _ Hl) as (c1 & l1' & r1' & b1' & F1 & I1 & V1).
  destruct (texas_holdem_score_seven _ Hl') as (c2 & l2' & r2' & b2' & F2 & I2 & V2).
  rewrite E1 in F1. rewrite E2 in F2.
  inversion F1; inversion F2; subst l1' r1' b1' l2' r2' b2'.
  destruct (combinations_perm_In _ _ HP _ _ I1) as (c1' & I1' & P1).
  destruct (combinations_perm_In _ _ (Permutation_sym HP) _ _ I2)
    as (c2' & I2' & P2).
  pose proof (combinations_length _ _ _ I1) as L1.
  pose proof (combinations_length _ _ _ I2) as L2.
  pose proof (combinations_length _ _ _ I1') as L1'.
  pose proof (combinations_length _ _ _ I2') as L2'.
  destruct (V01_evaluate5 c1' L1') as (la & ra & ba & Va & _).
  destruct (V01_evaluate5 c2' L2') as (lb & rb & bb & Vb & _).
  destruct (hand_key_perm _ _ _ _ L1 P1 V1 Va) as [K1 _].
  destruct (hand_key_perm _ _ _ _ L2 P2 V2 Vb) as [K2 _].
  pose proof (M2 _ _ I1' Va) as N2. pose proof (M1 _ _ I2' Vb) as N1.
  rewrite <- K1 in N2. rewrite <- K2 in N1.
  cbn [hand_key] in N1, N2.
  pose proof (eval_ltb_total _ _ N1 N2) as K. inversion K; subst r2.
  assert (l1 = l2) as ->.
  { destruct (classify5 c1 L1) as (i1 & t1 & x1 & y1 & z1 & _ & G1 & C1).
    destruct (classify5 c2 L2) as (i2 & t2 & x2 & y2 & z2 & _ & G2 & C2).
    rewrite V1 in G1. rewrite V2 in G2. inversion G1; inversion G2; subst.
    exact (categories_label_of_rank _ _ _ _ _ C1 C2). }
  exists l2, r1, b1, b2. auto.
Qed.

Lemma texas_holdem_score_any_card_order_witness :
  List.length wheel_and_six = 7%nat /\
  Permutation wheel_and_six (rev wheel_and_six) /\
  exists label rank bc bc',
    V01.texas_holdem_score wheel_and_six = Ok (Some label, rank, bc) /\
    V01.texas_holdem_score (rev wheel_and_six) = Ok (Some label, rank, bc') /\
    sorted_desc (map fst bc) = sorted_desc (map fst bc').
Proof.
  split; [reflexivity|]. split; [apply Permutation_rev|].
  apply (texas_holdem_score_any_card_order wheel_and_six (rev wheel_and_six)).
  - reflexivity.
  - apply Permutation_rev.
Defined.

(** ** [is_flush], [is_straight] and [get_rank_counts] *)

Lemma set_all_equal (s : suit) (l : list suit) :
  l <> [] -> Forall (eq s) l -> set suit_eqb l = [s].
Proof.
  intros Hne H. induction H as [|x t Hx Ht IH]; [contradiction|].
  subst x. destruct t as [|y t]; [reflexivity|].
  inversion Ht; subst. cbn [set existsb].
  replace (suit_eqb y y) with true by (symmetry; now apply suit_eqb_eq).
  cbn [orb]. apply IH. discriminate.
Qed.

(** X15: [is_flush] answers [True] exactly for a non-empty list of equal
    suits; in particular it answers [False] for no card at all. *)
Theorem is_flush_iff_one_suit (suits : list suit) :
  V2.is_flush suits = true <->
  exists s, suits <> [] /\ Forall (eq s) suits.
Proof.
  unfold V2.is_flush, len. split.
  - intros H. apply Z.eqb_eq in H.
    destruct (set suit_eqb suits) as [|s [|? ?]] eqn:E; simpl in H; try lia.
    exists s. split.
    + intros ->. discriminate.
    + apply Forall_forall. intros x Hx.
      apply (set_In suit_eqb suit_eqb_eq) in Hx. rewrite E in Hx.
      destruct Hx as [->|[]]. reflexivity.
  - intros (s & Hne & Hall). now rewrite (set_all_equal s suits Hne Hall).
Qed.

Lemma is_straight_returns (ranks : list Z) :
  exists b, V2.is_straight ranks = Ok b.
Proof.
  unfold V2.is_straight. destruct ranks as [|x t]; [now exists false|].
  destruct (len (set Z.eqb (x :: t)) =? 5); eexists; reflexivity.
Qed.

Ltac straight_case a b c d e :=
  let Hst := fresh "Hst" in
  eassert (Hst : V2.is_straight [a; b; c; d; e] = _);
  [ unfold V2.is_straight, sorted_asc; norm; reflexivity |];
  let Hasc := fresh "Hasc" in
  assert (Hasc : sorted_asc [a; b; c; d; e] = [e; d; c; b; a])
    by (unfold sorted_asc; norm; reflexivity);
  rewrite Hst, Hasc; clear Hst Hasc.

Lemma is_straight_sorted a b c d e :
  a >= b -> b >= c -> c >= d -> d >= e ->
  (V2.is_straight [a; b; c; d; e] = Ok true <->
   (exists x, sorted_asc [a; b; c; d; e] = [x; x + 1; x + 2; x + 3; x + 4]) \/
   sorted_asc [a; b; c; d; e] = [2; 3; 4; 5; 14]).
Proof.
  intros Hab Hbc Hcd Hde.
  assert (Eab : a = b \/ a > b) by lia.
  assert (Ebc : b = c \/ b > c) by lia.
  assert (Ecd : c = d \/ c > d) by lia.
  assert (Ede : d = e \/ d > e) by lia.
  clear Hab Hbc Hcd Hde.
  destruct Eab as [->|Eab], Ebc as [->|Ebc], Ecd as [->|Ecd], Ede as [->|Ede];
    match goal with
    | |- context [V2.is_straight [?a; ?b; ?c; ?d; ?e]] =>
        straight_case a b c d e
    end;
    (split;
     [ intros H; inversion H as [H'];
       try (apply orb_true_iff in H'; destruct H' as [H'|H'];
            [ left; exists e; apply Z.eqb_eq in H'; repeat f_equal; lia
            | right; now apply seq_eqb_eq ])
     | intros [[x H]|H]; inversion H; subst; try lia;
       try (f_equal; apply orb_true_iff;
            first [ left; apply Z.eqb_eq; lia | right; reflexivity ]) ]).
Qed.

(** X16: [is_straight] never raises, and on five ranks it answers [True]
    exactly when, sorted, they are five consecutive values or the wheel
    2, 3, 4, 5, 14. *)
Theorem is_straight_iff_consecutive (ranks : list Z) :
  (exists b, V2.is_straight ranks = Ok b) /\
  (List.length ranks = 5%nat ->
   (V2.is_straight ranks = Ok true <->
    (exists x, sorted_asc ranks = [x; x + 1; x + 2; x + 3; x + 4]) \/
    sorted_asc ranks = [2; 3; 4; 5; 14])).
Proof.
  split; [apply is_straight_returns|]. intros Hl.
  destruct (sorted_desc5 ranks Hl) as (a & b & c & d & e & E & Hord).
  assert (HP : Permutation ranks [a; b; c; d; e])
    by (rewrite <- E; symmetry; apply sorted_perm).
  rewrite (V2_is_straight_perm _ _ HP), (sorted_asc_perm _ _ HP).
  apply is_straight_sorted; tauto.
Qed.

Lemma counter_add_sum (k : Z) (d : list (Z * nat)) :
  list_sum (map snd (counter_add k d)) = S (list_sum (map snd d)).
Proof.
  induction d as [|[k' n] d IH]; simpl; [reflexivity|].
  destruct (k =? k'); simpl; [reflexivity|]. rewrite IH. lia.
Qed.

Lemma Counter_sum (l : list Z) :
  list_sum (map snd (Counter l)) = List.length l.
Proof.
  unfold Counter.
  assert (G : forall d,
             list_sum (map snd (fold_left (fun d k => counter_add k d) l d)) =
             (list_sum (map snd d) + List.length l)%nat).
  { induction l as [|x l IH]; intros d; simpl; [lia|].
    rewrite IH, counter_add_sum. lia. }
  now rewrite G.
Qed.

Lemma list_sum_perm (l1 l2 : list nat) :
  Permutation l1 l2 -> list_sum l1 = list_sum l2.
Proof. induction 1; simpl; lia. Qed.

Lemma StronglySorted_NoDup {A : Type} (R : A -> A -> Prop) (l : list A) :
  StronglySorted R l -> NoDup l ->
  StronglySorted (fun x y => R x y /\ x <> y) l.
Proof.
  induction 1 as [|x t Hs IH Hall]; intros Hn; constructor.
  - apply IH. now inversion Hn.
  - inversion Hn as [|? ? Hx Ht]; subst. rewrite Forall_forall in *.
    intros y Hy. split; [now apply Hall|]. intros ->. contradiction.
Qed.

(** X17: [get_rank_counts] lists each rank of the hand once, with the
    number of times it occurs, in order of decreasing count and, for equal
    counts, decreasing rank; the counts add up to the number of cards. *)
Theorem get_rank_counts_sorted_counts (ranks : list Z) :
  (forall r n,
      In (r, n) (V2.get_rank_counts ranks) <->
      count_occ Z.eq_dec ranks r = n /\ (0 < n)%nat) /\
  NoDup (map fst (V2.get_rank_counts ranks)) /\
  StronglySorted
    (fun x y => (snd y < snd x)%nat \/ (snd x = snd y /\ fst y < fst x))
    (V2.get_rank_counts ranks) /\
  list_sum (map snd (V2.get_rank_counts ranks)) = List.length ranks.
Proof.
  assert (HP : Permutation (V2.get_rank_counts ranks) (Counter ranks))
    by apply sorted_perm.
  split; [|split; [|split]].
  - intros r n. rewrite <- Counter_In. split; apply Permutation_in;
      [exact HP | symmetry; exact HP].
  - apply (Permutation_NoDup (Permutation_map fst (Permutation_sym HP))).
    apply Counter_wf.
  - assert (Hs : StronglySorted
                   (before (fun x y => V2.count_key_ltb y x))
                   (V2.get_rank_counts ranks)).
    { apply sorted_sorted.
      - intros x y. apply count_key_asym.
      - unfold before. intros x y z. apply count_key_trans. }
    assert (Hn : NoDup (V2.get_rank_counts ranks)).
    { apply (Permutation_NoDup (Permutation_sym HP)), Counter_NoDup. }
    eapply StronglySorted_weaken; [|exact (StronglySorted_NoDup _ _ Hs Hn)].
    intros [r1 n1] [r2 n2] [Hb Hne]. unfold before, V2.count_key_ltb in Hb.
    simpl in *. destruct (Nat.eqb_spec n1 n2) as [->|N].
    + right. split; [reflexivity|]. apply Z.ltb_ge in Hb.
      assert (r1 <> r2) by congruence. lia.
    + left. apply Nat.ltb_ge in Hb. lia.
  - rewrite (list_sum_perm _ _ (Permutation_map snd HP)). apply Counter_sum.
Qed.

(** ** How many hands *)

Lemma combinations_count {A : Type} (l : list A) (k : nat) :
  Z.of_nat (List.length (combinations l k)) = binomial (List.length l) k.
Proof.
  revert k. induction l as [|x t IH]; intros [|k]; simpl; try reflexivity.
  rewrite length_app, length_map, Nat2Z.inj_add, !IH. reflexivity.
Qed.

Lemma all_hands_count : len V2.all_hands = 2598960.
Proof.
  unfold len, V2.all_hands. rewrite combinations_count.
  vm_compute. reflexivity.
Qed.

(** ** Tie-breaks of the counted categories *)

Ltac split_fixed_ranks_keep :=
  repeat match goal with
  | |- context [seq_eqb ?l ?k] =>
      let H := fresh "HE" in
      destruct (seq_eqb l k) eqn:H;
      [ apply seq_eqb_eq in H; inversion H; subst; try lia | ]
  end.

Ltac counted_case a b c d e :=
  components a b c d e;
  split_fixed_ranks_keep;
  cbn [bind];
  try match goal with
      | |- context [(?x - ?y =? 4)] => is_var x; destruct (x - y =? 4)
      end;
  match goal with fl : bool |- _ => destruct fl end;
  norm;
  let E := fresh "E" in
  let Hidx := fresh "Hidx" in
  intros E Hidx; inversion E; subst; clear E;
  first [ solve [exfalso; cbn in Hidx; intuition discriminate]
        | left; split; [reflexivity | in_categories]
        | right; repeat split; reflexivity ].

Lemma V2_counted_sorted a b c d e s1 s2 s3 s4 s5 idx tb :
  a >= b -> b >= c -> c >= d -> d >= e ->
  V2.evaluate_hand [(a, s1); (b, s2); (c, s3); (d, s4); (e, s5)] =
    Ok (idx, tb) ->
  In idx [2; 3; 6; 7; 8; 9] ->
  (tb = map (fun rc => - fst rc) (V2.get_rank_counts [a; b; c; d; e]) /\
   In (idx, map snd (V2.get_rank_counts [a; b; c; d; e]))
      [ (2, [4; 1]%nat); (3, [3; 2]%nat); (6, [3; 1; 1]%nat);
        (7, [2; 2; 1]%nat); (8, [2; 1; 1; 1]%nat);
        (9, [1; 1; 1; 1; 1]%nat) ]) \/
  (idx = 9 /\
   map snd (V2.get_rank_counts [a; b; c; d; e]) = [5%nat] /\
   tb = map Z.opp [a; b; c; d; e]).
Proof.
  intros Hab Hbc Hcd Hde.
  unfold V2.evaluate_hand, V2.is_flush.
  cbn [map fst snd].
  set (fl := len (set suit_eqb _) =? 1). clearbody fl.
  assert (Eab : a = b \/ a > b) by lia.
  assert (Ebc : b = c \/ b > c) by lia.
  assert (Ecd : c = d \/ c > d) by lia.
  assert (Ede : d = e \/ d > e) by lia.
  clear Hab Hbc Hcd Hde.
  destruct Eab as [->|Eab], Ebc as [->|Ebc], Ecd as [->|Ecd], Ede as [->|Ede];
    match goal with
    | |- context [V2.is_straight [?a; ?b; ?c; ?d; ?e]] => counted_case a b c d e
    end.
Qed.
(** X18: in the categories that [evaluate_hand] of pokercombos.py decides by
    counting ranks, the tie-break is the list of the distinct ranks, negated,
    in the order of [get_rank_counts]: most frequent first, then highest
    first.  The [sorted], [max] and [min] calls on the kickers and pairs
    change nothing, and the counts are those of the category.  The one
    exception: five cards of one rank are a high card. *)
Theorem evaluate_hand_tiebreak_by_count (hand : list card) (idx : Z)
    (tb : list Z) :
  List.length hand = 5%nat ->
  V2.evaluate_hand hand = Ok (idx, tb) ->
  In idx [2; 3; 6; 7; 8; 9] ->
  (tb = map (fun rc => - fst rc) (V2.get_rank_counts (map fst hand)) /\
   In (idx, map snd (V2.get_rank_counts (map fst hand)))
      [ (2, [4; 1]%nat); (3, [3; 2]%nat); (6, [3; 1; 1]%nat);
        (7, [2; 2; 1]%nat); (8, [2; 1; 1; 1]%nat);
        (9, [1; 1; 1; 1; 1]%nat) ]) \/
  (idx = 9 /\
   map snd (V2.get_rank_counts (map fst hand)) = [5%nat] /\
   tb = map Z.opp (sorted_desc (map fst hand))).
Proof.
  intros Hl E Hidx.
  destruct (sorted_desc5 (map fst hand)) as (a & b & c & d & e & Hs & Hord).
  { now rewrite length_map. }
  destruct (length5 (map snd hand)) as (s1 & s2 & s3 & s4 & s5 & Hsuits).
  { now rewrite length_map. }
  assert (HP : Permutation (map fst hand) [a; b; c; d; e]).
  { rewrite <- Hs. symmetry. apply sorted_perm. }
  rewrite (V2_evaluate_hand_perm hand
             [(a, s1); (b, s2); (c, s3); (d, s4); (e, s5)]) in E.
  - rewrite (get_rank_counts_perm _ _ HP), Hs.
    apply (V2_counted_sorted a b c d e s1 s2 s3 s4 s5); tauto.
  - exact HP.
  - cbn [map snd]. now rewrite Hsuits.
Qed.

Lemma evaluate_hand_tiebreak_by_count_witness :
  List.length two_pair = 5%nat /\
  V2.evaluate_hand two_pair = Ok (7, [-9; -4; -13]) /\
  In 7 [2; 3; 6; 7; 8; 9] /\
  ((([-9; -4; -13] : list Z) =
    map (fun rc => - fst rc) (V2.get_rank_counts (map fst two_pair)) /\
    In (7, map snd (V2.get_rank_counts (map fst two_pair)))
       [ (2, [4; 1]%nat); (3, [3; 2]%nat); (6, [3; 1; 1]%nat);
         (7, [2; 2; 1]%nat); (8, [2; 1; 1; 1]%nat);
         (9, [1; 1; 1; 1; 1]%nat) ]) \/
   (7 = 9 /\
    map snd (V2.get_rank_counts (map fst two_pair)) = [5%nat] /\
    ([-9; -4; -13] : list Z) = map Z.opp (sorted_desc (map fst two_pair)))).
Proof.
  assert (L : List.length two_pair = 5%nat) by reflexivity.
  assert (E : V2.evaluate_hand two_pair = Ok (7, [-9; -4; -13]))
    by reflexivity.
  assert (I : In 7 [2; 3; 6; 7; 8; 9]) by (cbn; tauto).
  repeat (split; [assumption|]).
  exact (evaluate_hand_tiebreak_by_count two_pair 7 [-9; -4; -13] L E I).
Defined.

(** * Further properties of the ranking script *)

(** ** A rank counts the better hands *)

Lemma filter_length_perm {A : Type} (f : A -> bool) (l1 l2 : list A) :
  Permutation l1 l2 ->
  List.length (filter f l1) = List.length (filter f l2).
Proof.
  induction 1; simpl; try lia.
  - destruct (f x); simpl; lia.
  - destruct (f x), (f y); simpl; lia.
Qed.

Lemma filter_length_lt {A : Type} (f : A -> bool) (l : list A) (x : A) :
  In x l -> f x = false ->
  (List.length (filter f l) < List.length l)%nat.
Proof.
  intros Hin Hx. induction l as [|y l IH]; [destruct Hin|].
  simpl. pose proof (filter_length_le f l) as Hle.
  destruct Hin as [-> | Hin].
  - rewrite Hx. lia.
  - specialize (IH Hin). destruct (f y); simpl; lia.
Qed.

Lemma filter_none {A : Type} (f : A -> bool) (l : list A) :
  Forall (fun x => f x = false) l -> filter f l = [].
Proof. induction 1 as [|x l E _ IH]; simpl; [|rewrite E]; auto. Qed.

Lemma StronglySorted_middle {A : Type} (R : A -> A -> Prop)
    (l1 l2 : list A) (x : A) :
  StronglySorted R (l1 ++ x :: l2) ->
  Forall (fun y => R y x) l1 /\ Forall (R x) l2.
Proof.
  induction l1 as [|a l1 IH]; simpl; intros H; inversion H; subst.
  - split; [constructor | assumption].
  - destruct (IH H2) as [H5 H6]. split; [|exact H6].
    constructor; [|exact H5].
    match goal with F : Forall _ (l1 ++ x :: l2) |- _ =>
      rewrite Forall_forall in F; apply F end.
    apply in_elt.
Qed.

Lemma Forall2_In_r {A B : Type} (P : A -> B -> Prop) (l : list A)
    (l' : list B) (y : B) :
  Forall2 P l l' -> In y l' -> exists x, In x l /\ P x y.
Proof.
  induction 1 as [|x y' l l' H _ IH]; intros Hy; [destruct Hy|].
  destruct Hy as [<- | Hy].
  - exists x. split; [now left | exact H].
  - destruct (IH Hy) as (x' & Hin & H'). exists x'. split; [now right | exact H'].
Qed.

(** The loop over the sorted hands [S0 = P ++ L], when it has written the
    rows of [P]: every later row gets one more than the number of hands of
    [S0] that sort strictly before its own. *)
Lemma rank_loop_counts (S0 : list (list card * V2.evaluation)) :
  StronglySorted
    (before (fun x y : list card * V2.evaluation =>
               V2.eval_ltb (snd x) (snd y))) S0 ->
  forall L P df cur prev,
    S0 = P ++ L ->
    Forall (fun he => List.length (fst he) = 5%nat) L ->
    match prev with
    | None => P = []
    | Some pe =>
        exists P' hp, P = P' ++ [hp] /\ snd hp = pe /\
          cur = 1 + Z.of_nat (List.length
                  (filter (fun he => V2.eval_ltb (snd he) pe) S0))
    end ->
    exists rows cur' prev',
      for_each V2.rank_step (df, cur, prev)
               (V2.enumerate_from (Z.of_nat (List.length P)) L) =
        Ok (df ++ rows, cur', prev') /\
      Forall2 (fun he r =>
                 V2.Hand r = fst he /\
                 V2.get_hand_name (fst he) = Ok (V2.Type_ r) /\
                 V2.Rank r = 1 + Z.of_nat (List.length
                   (filter (fun x => V2.eval_ltb (snd x) (snd he)) S0)))
              L rows.
Proof.
  intros Hs L. induction L as [|[hand e] L IH]; intros P df cur prev HS Hl Hinv.
  - exists [], cur, prev. simpl. rewrite app_nil_r. split; constructor.
  - inversion Hl as [|? ? Hl1 Hl2]; subst. simpl in Hl1.
    destruct (V2_evaluate5 hand Hl1) as (idx & tb & name & _ & _ & Hn).
    cbn [V2.enumerate_from for_each V2.rank_step]. rewrite Hn. cbn [bind].
    set (cur0 := if V2.differs e prev
                 then Z.of_nat (List.length P) + 1 else cur).
    destruct (StronglySorted_middle _ _ _ _ Hs) as [Hbefore Hafter].
    unfold before in Hbefore, Hafter. simpl in Hbefore, Hafter.
    assert (Hcur0 : cur0 = 1 + Z.of_nat (List.length
              (filter (fun x => V2.eval_ltb (snd x) e) (P ++ (hand, e) :: L)))).
    { assert (Htail : filter (fun x : list card * V2.evaluation =>
                                V2.eval_ltb (snd x) e) ((hand, e) :: L) = []).
      { apply filter_none. constructor.
        - simpl. apply eval_ltb_irrefl.
        - exact Hafter. }
      rewrite filter_app, Htail, app_nil_r.
      subst cur0. destruct prev as [pe|]; cbn [V2.differs].
      - destruct Hinv as (P' & hp & HP & Hpe & Hcur).
        destruct (V2.eval_eqb e pe) eqn:Eq; cbn [negb].
        + apply eval_eqb_eq in Eq. rewrite <- Eq in Hcur.
          rewrite Hcur, filter_app, Htail, app_nil_r. reflexivity.
        + assert (Hlt : V2.eval_ltb pe e = true).
          { destruct (V2.eval_ltb pe e) eqn:E1; [reflexivity|].
            assert (E2 : V2.eval_ltb e pe = false).
            { rewrite Forall_forall in Hbefore. rewrite <- Hpe.
              apply (Hbefore hp). rewrite HP. apply in_elt. }
            rewrite (eval_ltb_total _ _ E2 E1) in Eq.
            assert (V2.eval_eqb pe pe = true) by now apply eval_eqb_eq.
            congruence. }
          assert (Hallb : Forall (fun x : list card * V2.evaluation =>
                                    V2.eval_ltb (snd x) e = true) P).
          { rewrite Forall_forall. intros x Hx.
            destruct (V2.eval_ltb pe (snd x)) eqn:E1.
            - exfalso. rewrite HP in Hx. apply in_app_or in Hx.
              destruct Hx as [Hx | [<- | []]].
              + assert (Hs' : StronglySorted
                          (before (fun x y : list card * V2.evaluation =>
                                     V2.eval_ltb (snd x) (snd y)))
                          (P' ++ hp :: (hand, e) :: L)).
                { rewrite HP, <- app_assoc in Hs. exact Hs. }
                apply StronglySorted_middle in Hs'. destruct Hs' as [Hb _].
                rewrite Forall_forall in Hb. specialize (Hb x Hx).
                unfold before in Hb. rewrite Hpe in Hb. congruence.
              + rewrite Hpe, eval_ltb_irrefl in E1. discriminate.
            - destruct (V2.eval_ltb (snd x) pe) eqn:E2.
              + eapply eval_ltb_trans; eassumption.
              + rewrite (eval_ltb_total _ _ E2 E1). exact Hlt. }
          assert (Hf : filter (fun x : list card * V2.evaluation =>
                                 V2.eval_ltb (snd x) e) P = P).
          { clear - Hallb.
            induction Hallb as [|x P E _ IH]; simpl; [reflexivity|].
            rewrite E. now f_equal. }
          rewrite Hf. lia.
      - subst P. reflexivity. }
    destruct (IH (P ++ [(hand, e)]) (df ++ [V2.mk_row hand name cur0]) cur0
                 (Some e))
      as (rows & cur' & prev' & Hfor & Hrows).
    + rewrite <- app_assoc. reflexivity.
    + exact Hl2.
    + exists P, (hand, e). split; [reflexivity|]. split; [reflexivity|].
      exact Hcur0.
    + exists (V2.mk_row hand name cur0 :: rows), cur', prev'. split.
      * rewrite length_app, Nat2Z.inj_add in Hfor. simpl in Hfor.
        replace (df ++ V2.mk_row hand name cur0 :: rows)
          with ((df ++ [V2.mk_row hand name cur0]) ++ rows)
          by (rewrite <- app_assoc; reflexivity).
        exact Hfor.
      * constructor; [|exact Hrows]. simpl. auto.
Qed.


(** What [rank_all] returns, row by row of the sorted evaluations. *)
Lemma rank_all_rows (hands : list (list card)) :
  Forall (fun hand => List.length hand = 5%nat) hands ->
  exists rows hes,
    V2.rank_all hands = Ok rows /\
    map fst hes = hands /\
    Forall (fun he => V2.evaluate_hand (fst he) = Ok (snd he)) hes /\
    Forall2 (fun he r =>
               V2.Hand r = fst he /\
               V2.get_hand_name (fst he) = Ok (V2.Type_ r) /\
               V2.Rank r = 1 + Z.of_nat (List.length
                 (filter (fun x => V2.eval_ltb (snd x) (snd he)) hes)))
            (sorted (fun x y => V2.eval_ltb (snd x) (snd y)) hes) rows.
Proof.
  intros Hall. unfold V2.rank_all.
  destruct (evaluate_all hands [] Hall) as (hes & -> & Hm & Hev). cbn [bind app].
  set (lt := fun x y : list card * V2.evaluation => V2.eval_ltb (snd x) (snd y)).
  set (S0 := sorted lt hes).
  assert (HP : Permutation S0 hes) by apply sorted_perm.
  assert (Hsorted : StronglySorted (before lt) S0).
  { apply sorted_sorted.
    - intros x y. apply eval_ltb_asym.
    - intros x y z. apply eval_before_trans. }
  assert (Hl5 : Forall (fun he => List.length (fst he) = 5%nat) S0).
  { rewrite Forall_forall in *. intros he Hin. apply Hall.
    rewrite <- Hm. apply in_map. eapply Permutation_in; eassumption. }
  destruct (rank_loop_counts S0 Hsorted S0 [] [] 1 None eq_refl Hl5 eq_refl)
    as (rows & cur' & prev' & Hfor & Hrows).
  unfold V2.enumerate. simpl in Hfor. rewrite Hfor. cbn [bind app].
  exists rows, hes. split; [reflexivity|]. split; [exact Hm|].
  split; [exact Hev|].
  eapply Forall2_impl; [|exact Hrows].
  intros he r (H1 & H2 & H3). split; [exact H1|]. split; [exact H2|].
  rewrite H3. do 2 f_equal. apply filter_length_perm. exact HP.
Qed.



(** ** The script on the whole deck *)

Lemma combinations_NoDup {A : Type} (l : list A) (k : nat) :
  NoDup l ->
  NoDup (combinations l k) /\
  forall c, In c (combinations l k) -> NoDup c.
Proof.
  intros Hn. revert k. induction Hn as [|x t Hx Ht IH]; intros [|k]; simpl.
  - split; [repeat constructor; intros [] | intros c [<- | []]; constructor].
  - split; [constructor | intros c []].
  - split; [repeat constructor; intros [] | intros c [<- | []]; constructor].
  - destruct (IH k) as [N1 C1], (IH (S k)) as [N2 C2].
    assert (Hfresh : forall c k', In c (combinations t k') -> ~ In x c).
    { intros c k' Hc Hin. apply Hx. eapply combinations_incl; eassumption. }
    split.
    + apply NoDup_app; [| exact N2 |].
      * apply Injective_map_NoDup; [|exact N1].
        intros c1 c2 E. now inversion E.
      * intros c Hc Hc'. apply in_map_iff in Hc.
        destruct Hc as (c0 & <- & _).
        apply (Hfresh _ _ Hc'). now left.
    + intros c Hc. apply in_app_or in Hc. destruct Hc as [Hc|Hc].
      * apply in_map_iff in Hc. destruct Hc as (c0 & <- & Hc0).
        constructor; [exact (Hfresh _ _ Hc0) | exact (C1 _ Hc0)].
      * exact (C2 _ Hc).
Qed.

(** X20: run on the deck of 52 cards, the script does not raise.  It ranks
    2,598,960 hands, all different and each of five different cards of the
    deck, writes one row for each, and every rank is between 1 and
    2,598,960. *)
Theorem df_data_all_hands :
  len V2.all_hands = 2598960 /\
  NoDup V2.all_hands /\
  (forall hand, In hand V2.all_hands ->
     List.length hand = 5%nat /\ NoDup hand /\ incl hand V2.Deck_cards) /\
  exists rows,
    V2.df_data = Ok rows /\
    Permutation (map V2.Hand rows) V2.all_hands /\
    forall r, In r rows -> 1 <= V2.Rank r <= 2598960.
Proof.
  assert (Hdeck : NoDup V2.Deck_cards) by exact init_cards_NoDup.
  destruct (combinations_NoDup V2.Deck_cards 5 Hdeck) as [N C].
  split; [exact all_hands_count|]. split; [exact N|]. split.
  - intros hand Hin. split; [|split].
    + eapply combinations_length; exact Hin.
    + now apply C.
    + eapply combinations_incl; exact Hin.
  - assert (Hall : Forall (fun hand => List.length hand = 5%nat) V2.all_hands).
    { apply Forall_forall. intros hand. apply combinations_length. }
    destruct (rank_all_rows V2.all_hands Hall) as (rows & hes & E & Hm & Hev & Hrows).
    exists rows. split; [exact E|]. split.
    + rewrite <- Hm.
      transitivity (map fst (sorted (fun x y : list card * V2.evaluation =>
                                       V2.eval_ltb (snd x) (snd y)) hes)).
      * clear - Hrows. induction Hrows as [|he r L rows (H & _) _ IH]; simpl;
          [constructor | rewrite H; now constructor].
      * apply Permutation_map, sorted_perm.
    + intros r Hr.
      destruct (Forall2_In_r _ _ _ r Hrows Hr) as (he & Hin & _ & _ & ->).
      assert (Hlen : Z.of_nat (List.length hes) = 2598960).
      { rewrite <- all_hands_count, <- Hm. unfold len. now rewrite length_map. }
      assert (Hlt : (List.length
                       (filter (fun x : list card * V2.evaluation =>
                                  V2.eval_ltb (snd x) (snd he)) hes) <
                     List.length hes)%nat).
      { apply (filter_length_lt _ _ he).
        - eapply Permutation_in; [apply sorted_perm | exact Hin].
        - apply eval_ltb_irrefl. }
      lia.
Qed.

(** * Printing cards *)

Lemma string_of_uint_digits (u : Decimal.uint) :
  all_chars is_digit_or_minus (NilEmpty.string_of_uint u) = true.
Proof. induction u; simpl; auto. Qed.

Lemma str_digits (n : Z) : all_chars is_digit_or_minus (str n) = true.
Proof.
  unfold str. destruct (Z.to_int n); simpl; apply string_of_uint_digits.
Qed.

Lemma str_inj (n m : Z) : str n = str m -> n = m.
Proof.
  unfold str. intros E. apply to_int_inj.
  assert (H : Some (Z.to_int n) = Some (Z.to_int m))
    by (rewrite <- !NilEmpty.isi, E; reflexivity).
  now inversion H.
Qed.

Lemma str_nonempty (n : Z) : str n <> "".
Proof.
  intros H.
  assert (E : NilEmpty.int_of_string "" = Some (Z.to_int n))
    by (rewrite <- H; apply NilEmpty.isi).
  cbn in E. inversion E as [E'].
  assert (n = 0) by (rewrite <- (of_to n), <- E'; reflexivity).
  subst n. discriminate H.
Qed.

Lemma all_chars_impl (p q : ascii -> bool) (s : string) :
  (forall c, p c = true -> q c = true) ->
  all_chars p s = true -> all_chars q s = true.
Proof.
  intros Hpq. induction s as [|c s IH]; simpl; [reflexivity|].
  rewrite !andb_true_iff. intros [H1 H2]. auto.
Qed.

Lemma all_chars_app (p : ascii -> bool) (s t : string) :
  all_chars p (s ++ t)%string = all_chars p s && all_chars p t.
Proof.
  induction s as [|c s IH]; simpl; [reflexivity|].
  now rewrite IH, andb_assoc.
Qed.

Lemma length_append (s t : string) :
  String.length (s ++ t)%string = (String.length s + String.length t)%nat.
Proof. induction s as [|c s IH]; simpl; [reflexivity | now rewrite IH]. Qed.

(** A string is cut in one way only into a head and a tail of known
    length. *)
Lemma append_inj_tail (s1 s2 t1 t2 : string) :
  String.length t1 = String.length t2 ->
  (s1 ++ t1 = s2 ++ t2)%string -> s1 = s2 /\ t1 = t2.
Proof.
  intros Hl. revert s2. induction s1 as [|c s1 IH]; intros [|c2 s2] E; simpl in E.
  - auto.
  - exfalso. apply (f_equal String.length) in E. simpl in E.
    rewrite length_append in E. lia.
  - exfalso. apply (f_equal String.length) in E. simpl in E.
    rewrite length_append in E. lia.
  - inversion E; subst. destruct (IH s2) as [-> ->]; auto.
Qed.

(** What the two [formatted_card] show for the rank. *)
Lemma rank_text_cases (r : Z) :
  let text :=
    match find (fun kv : Z * string => fst kv =? r) V2.rank_map with
    | Some kv => snd kv
    | None => str r
    end in
  (r = 10 /\ text = "T") \/ (r = 11 /\ text = "J") \/ (r = 12 /\ text = "Q") \/
  (r = 13 /\ text = "K") \/ (r = 14 /\ text = "A") \/
  (~ 10 <= r <= 14 /\ text = str r).
Proof.
  unfold V2.rank_map. cbn [find fst].
  destruct (Z.eqb_spec 10 r); [subst r; cbn [snd]; tauto|].
  destruct (Z.eqb_spec 11 r); [subst r; cbn [snd]; tauto|].
  destruct (Z.eqb_spec 12 r); [subst r; cbn [snd]; tauto|].
  destruct (Z.eqb_spec 13 r); [subst r; cbn [snd]; tauto|].
  destruct (Z.eqb_spec 14 r); [subst r; cbn [snd]; tauto|].
  do 5 right. split; [lia | reflexivity].
Qed.

Lemma rank_text_inj (r1 r2 : Z) :
  match find (fun kv : Z * string => fst kv =? r1) V2.rank_map with
  | Some kv => snd kv
  | None => str r1
  end =
  match find (fun kv : Z * string => fst kv =? r2) V2.rank_map with
  | Some kv => snd kv
  | None => str r2
  end -> r1 = r2.
Proof.
  pose proof (rank_text_cases r1) as H1. pose proof (rank_text_cases r2) as H2.
  cbv zeta in H1, H2.
  pose proof (str_digits r1) as D1. pose proof (str_digits r2) as D2.
  intros E. rewrite E in H1.
  destruct H1 as [[-> T1]|[[-> T1]|[[-> T1]|[[-> T1]|[[-> T1]|[N1 T1]]]]]];
    destruct H2 as [[-> T2]|[[-> T2]|[[-> T2]|[[-> T2]|[[-> T2]|[N2 T2]]]]]];
    try reflexivity;
    rewrite T1 in T2;
    first [ discriminate
          | rewrite <- T2 in D2; vm_compute in D2; discriminate
          | rewrite T2 in D1; vm_compute in D1; discriminate
          | now apply str_inj ].
Qed.

Lemma rank_text_chars (r : Z) :
  let text :=
    match find (fun kv : Z * string => fst kv =? r) V2.rank_map with
    | Some kv => snd kv
    | None => str r
    end in
  text <> "" /\ all_chars not_space text = true.
Proof.
  pose proof (rank_text_cases r) as H. cbv zeta in *.
  destruct H as [[_ ->]|[[_ ->]|[[_ ->]|[[_ ->]|[[_ ->]|[_ ->]]]]]];
    try (split; [discriminate | reflexivity]).
  split.
  - apply str_nonempty.
  - apply (all_chars_impl is_digit_or_minus); [|apply str_digits].
    intros c. unfold is_digit_or_minus, not_space. simpl.
    rewrite !orb_true_iff, !Ascii.eqb_eq.
    intros H. repeat (destruct H as [H|H]; [subst c; reflexivity|]).
    discriminate.
Qed.

Lemma formatted_card_inj_V01 (c1 c2 : card) :
  V01.formatted_card c1 = V01.formatted_card c2 -> c1 = c2.
Proof.
  destruct c1 as [r1 s1], c2 as [r2 s2].
  unfold V01.formatted_card. cbv zeta. cbn [fst snd]. intros E.
  apply append_inj_tail in E; [|destruct s1, s2; reflexivity].
  destruct E as [Er Es]. apply rank_text_inj in Er. subst r2.
  destruct s1, s2; try discriminate; reflexivity.
Qed.

Lemma formatted_card_inj_V2 (c1 c2 : card) :
  V2.formatted_card c1 = V2.formatted_card c2 -> c1 = c2.
Proof.
  destruct c1 as [r1 s1], c2 as [r2 s2].
  unfold V2.formatted_card. cbv zeta. cbn [fst snd]. intros E.
  apply append_inj_tail in E; [|destruct s1, s2; reflexivity].
  destruct E as [Er Es]. apply rank_text_inj in Er. subst r2.
  destruct s1, s2; try discriminate; reflexivity.
Qed.

(** X21: both [formatted_card] give two different cards two different
    texts, whatever integers the ranks are. *)
Theorem formatted_card_injective (c1 c2 : card) :
  (V01.formatted_card c1 = V01.formatted_card c2 <-> c1 = c2) /\
  (V2.formatted_card c1 = V2.formatted_card c2 <-> c1 = c2).
Proof.
  split; (split; [|now intros ->]).
  - apply formatted_card_inj_V01.
  - apply formatted_card_inj_V2.
Qed.

(** A text without a space, then a space, then the rest: one way only. *)
Lemma split_at_space (x y r1 r2 : string) :
  all_chars not_space x = true -> all_chars not_space y = true ->
  (x ++ String " " r1 = y ++ String " " r2)%string -> x = y /\ r1 = r2.
Proof.
  revert y. induction x as [|c x IH]; intros [|c' y] Hx Hy E; simpl in *.
  - inversion E. auto.
  - inversion E; subst. discriminate.
  - inversion E; subst. discriminate.
  - inversion E; subst. apply andb_true_iff in Hx, Hy.
    destruct (IH y) as [-> ->]; tauto.
Qed.

Lemma concat_space_inj (l1 l2 : list string) :
  Forall (fun s => s <> "" /\ all_chars not_space s = true) l1 ->
  Forall (fun s => s <> "" /\ all_chars not_space s = true) l2 ->
  String.concat " " l1 = String.concat " " l2 -> l1 = l2.
Proof.
  intros H1. revert l2. induction H1 as [|x xs [Nx Sx] Hxs IH];
    intros l2 H2 E; destruct H2 as [|y ys [Ny Sy] Hys].
  - reflexivity.
  - exfalso. simpl in E. destruct ys; [congruence|].
    destruct y; [congruence | discriminate].
  - exfalso. simpl in E. destruct xs; [congruence|].
    destruct x; [congruence | discriminate].
  - destruct xs as [|x' xs], ys as [|y' ys].
    + simpl in E. now subst.
    + exfalso. simpl in E. rewrite E, all_chars_app in Sx.
      simpl in Sx. rewrite andb_false_r in Sx. discriminate.
    + exfalso. simpl in E. rewrite <- E, all_chars_app in Sy.
      simpl in Sy. rewrite andb_false_r in Sy. discriminate.
    + change ((x ++ String " " (String.concat " " (x' :: xs)))%string =
              (y ++ String " " (String.concat " " (y' :: ys)))%string) in E.
      apply split_at_space in E; [|assumption..].
      destruct E as [-> E]. f_equal. now apply IH.
Qed.

Lemma formatted_card_chars (c : card) :
  V2.formatted_card c <> "" /\
  all_chars not_space (V2.formatted_card c) = true.
Proof.
  destruct c as [r su]. unfold V2.formatted_card. cbv zeta. cbn [fst snd].
  destruct (rank_text_chars r) as [N S]. split.
  - intros H. apply N.
    destruct (match find _ V2.rank_map with Some kv => snd kv | None => str r end);
      [reflexivity | discriminate].
  - rewrite all_chars_app, S. destruct su; reflexivity.
Qed.

(** X22: the text in the column [Hand] tells the hand: two lists of cards
    have the same text only when they are the same cards in the same
    order. *)
Theorem hand_text_injective (hand1 hand2 : list card) :
  V2.hand_text hand1 = V2.hand_text hand2 <-> hand1 = hand2.
Proof.
  split; [|now intros ->].
  unfold V2.hand_text. intros E.
  apply concat_space_inj in E.
  - revert hand2 E. induction hand1 as [|c1 h1 IH]; intros [|c2 h2] E;
      try discriminate; [reflexivity|].
    simpl in E. inversion E as [[E1 E2]]. f_equal; [|now apply IH].
    now apply formatted_card_inj_V2.
  - apply Forall_forall. intros s Hs. apply in_map_iff in Hs.
    destruct Hs as (c & <- & _). apply formatted_card_chars.
  - apply Forall_forall. intros s Hs. apply in_map_iff in Hs.
    destruct Hs as (c & <- & _). apply formatted_card_chars.
Qed.
